(** * Moltbook CLI: a shallow embedding of [moltbook.py] and its properties

    The development follows the layout of the script:
    - [Text]: the string operations of Python the script relies on
      (decimal rendering, [str.strip], [str.replace], [int]);
    - [Json]: decoded response bodies, Python truthiness, [str()] /
      [repr()] of a decoded value and [json.dumps(_, indent=2)];
    - [Run]: the effects of the script as a small state-and-outcome
      monad (standard output, standard error, requests sent; normal
      return, [sys.exit], uncaught exception);
    - [Click]: the command-line interface declared by the decorators
      of the script;
    - [Moltbook]: the functions of the script, one definition each,
      in the order of the source;
    - [Spec] and [Conduct]: the words of the specification and the
      conduct of whole commands, as definitions the properties use.

    Text is modelled as [string], each character standing for the code
    point of the same number (code points below 256).  JSON numbers are
    modelled as integers, the only numbers of the data model. *)

From Stdlib Require Import ZArith String Ascii List Bool DecimalString Lia.
Import ListNotations.

Set Warnings "-register-all".

#[local] Open Scope string_scope.
#[local] Open Scope Z_scope.

(* ===================================================================== *)
(** ** Text *)
(* ===================================================================== *)

Module Text.

(** The newline character, written ["\n"] in the source. *)
Definition nl : string := String (ascii_of_nat 10) EmptyString.

(** [str(n)] for an integer. *)
Definition str_int (z : Z) : string := NilZero.string_of_int (Z.to_int z).

(** [f"{n:+d}"]: the sign is always printed. *)
Definition str_int_signed (z : Z) : string :=
  if z <? 0 then str_int z else "+" ++ str_int z.

(** ["  " * n] and friends. *)
Fixpoint repeat_string (s : string) (n : nat) : string :=
  match n with
  | O => ""
  | S n' => s ++ repeat_string s n'
  end.

(** [sep.join(parts)]. *)
Fixpoint join (sep : string) (parts : list string) : string :=
  match parts with
  | [] => ""
  | [p] => p
  | p :: ps => p ++ sep ++ join sep ps
  end.

Definition code (c : ascii) : nat := nat_of_ascii c.

(** The double-quote character. *)
Definition dquote : ascii := ascii_of_nat 34.

Definition hex_digit (n : nat) : string :=
  String (match n with
          | 0 => "0" | 1 => "1" | 2 => "2" | 3 => "3" | 4 => "4"
          | 5 => "5" | 6 => "6" | 7 => "7" | 8 => "8" | 9 => "9"
          | 10 => "a" | 11 => "b" | 12 => "c" | 13 => "d" | 14 => "e"
          | _ => "f"
          end%nat%char) "".

(** Two lower-case hexadecimal digits of a code point below 256. *)
Definition hex2 (c : ascii) : string :=
  hex_digit (Nat.div (code c) 16) ++ hex_digit (Nat.modulo (code c) 16).

(** [c.isspace()] on the code points below 256. *)
Definition is_space (c : ascii) : bool :=
  let n := code c in
  ((9 <=? n) && (n <=? 13) || (28 <=? n) && (n <=? 32)
   || (n =? 133) || (n =? 160))%nat.

Fixpoint lstrip (s : string) : string :=
  match s with
  | String c s' => if is_space c then lstrip s' else s
  | EmptyString => ""
  end.

(** Drops trailing white space: a character is kept when something that
    is kept follows it or when it is not white space. *)
Fixpoint rstrip (s : string) : string :=
  match s with
  | EmptyString => ""
  | String c s' =>
      match rstrip s' with
      | EmptyString => if is_space c then "" else String c ""
      | r => String c r
      end
  end.

(** [s.strip()]. *)
Definition strip (s : string) : string := rstrip (lstrip s).

(** [s.replace(old, new)] for a one-character [old]. *)
Fixpoint replace_char (old : ascii) (new : string) (s : string) : string :=
  match s with
  | EmptyString => ""
  | String c s' =>
      (if Ascii.eqb c old then new else String c "") ++ replace_char old new s'
  end.

Definition is_digit (c : ascii) : bool := ((48 <=? code c) && (code c <=? 57))%nat.

(** The digits of an integer literal, where single underscores may
    separate digits: [acc] is the value read so far and [after_digit]
    tells whether the previous character was a digit. *)
Fixpoint digits_value (s : string) (acc : Z) (after_digit : bool) : option Z :=
  match s with
  | EmptyString => if after_digit then Some acc else None
  | String c s' =>
      if is_digit c then digits_value s' (10 * acc + Z.of_nat (code c - 48)) true
      else if Ascii.eqb c "_" then
             if after_digit then digits_value s' acc false else None
      else None
  end.

(** [int(s)] for a string: surrounding white space, an optional sign,
    decimal digits.  [None] stands for [ValueError]. *)
Definition py_int (s : string) : option Z :=
  match strip s with
  | String "-" d => option_map Z.opp (digits_value d 0 false)
  | String "+" d => digits_value d 0 false
  | d => digits_value d 0 false
  end.

End Text.

(* ===================================================================== *)
(** ** Decoded JSON values *)
(* ===================================================================== *)

Module Json.
Import Text.

(** What [response.json()] returns: [None], [bool], [int], [str],
    [list] and [dict].  A [dict] keeps the order of its keys (it is
    printed in that order), hence the association list. *)
Inductive json : Type :=
| JNull
| JBool (b : bool)
| JInt (z : Z)
| JStr (s : string)
| JList (items : list json)
| JObj (fields : list (string * json)).

(** [d[key]] when present: the first binding of the key. *)
Fixpoint lookup (key : string) (fields : list (string * json)) : option json :=
  match fields with
  | [] => None
  | (k, v) :: rest => if String.eqb k key then Some v else lookup key rest
  end.

(** [bool(v)]. *)
Definition truthy (v : json) : bool :=
  match v with
  | JNull => false
  | JBool b => b
  | JInt z => negb (z =? 0)
  | JStr s => negb (String.eqb s "")
  | JList items => match items with [] => false | _ => true end
  | JObj fields => match fields with [] => false | _ => true end
  end.

(** [a or b]. *)
Definition py_or (a b : json) : json := if truthy a then a else b.

(** *** [repr] and [str] *)

Fixpoint mem_char (c : ascii) (s : string) : bool :=
  match s with
  | EmptyString => false
  | String d s' => Ascii.eqb c d || mem_char c s'
  end.

Definition repr_char (quote : ascii) (c : ascii) : string :=
  let n := code c in
  if Ascii.eqb c quote || Ascii.eqb c "\" then String "\" (String c "")
  else if (n =? 9)%nat then "\t"
  else if (n =? 10)%nat then "\n"
  else if (n =? 13)%nat then "\r"
  else if ((n <? 32) || (n =? 127) || (128 <=? n) && (n <=? 160) || (n =? 173))%nat
       then "\x" ++ hex2 c
  else String c "".

Fixpoint repr_chars (quote : ascii) (s : string) : string :=
  match s with
  | EmptyString => ""
  | String c s' => repr_char quote c ++ repr_chars quote s'
  end.

(** [repr(s)] of a string: single quotes unless the text holds a single
    quote and no double quote. *)
Definition repr_str (s : string) : string :=
  let quote := if mem_char "'" s && negb (mem_char dquote s) then dquote else "'"%char in
  String quote (repr_chars quote s) ++ String quote "".

(** [repr(v)]. *)
Fixpoint py_repr (v : json) : string :=
  match v with
  | JNull => "None"
  | JBool true => "True"
  | JBool false => "False"
  | JInt z => str_int z
  | JStr s => repr_str s
  | JList items => "[" ++ join ", " (map py_repr items) ++ "]"
  | JObj fields =>
      "{" ++ join ", " (map (fun kv => repr_str (fst kv) ++ ": " ++ py_repr (snd kv)) fields) ++ "}"
  end.

(** [str(v)], what an f-string puts in place of [{v}]. *)
Definition py_str (v : json) : string :=
  match v with
  | JStr s => s
  | _ => py_repr v
  end.

(** *** [json.dumps(v, indent=2)] *)

Definition dumps_char (c : ascii) : string :=
  let n := code c in
  if Ascii.eqb c dquote then String "\" (String dquote "")
  else if Ascii.eqb c "\" then "\\"
  else if (n =? 10)%nat then "\n"
  else if (n =? 13)%nat then "\r"
  else if (n =? 9)%nat then "\t"
  else if (n =? 8)%nat then "\b"
  else if (n =? 12)%nat then "\f"
  else if ((n <? 32) || (126 <? n))%nat then "\u00" ++ hex2 c
  else String c "".

Fixpoint dumps_chars (s : string) : string :=
  match s with
  | EmptyString => ""
  | String c s' => dumps_char c ++ dumps_chars s'
  end.

Definition dumps_str (s : string) : string :=
  String dquote (dumps_chars s) ++ String dquote "".

(** The encoder at nesting [level]: an empty container is printed
    closed; otherwise every item goes on its own line, two spaces
    deeper than the bracket that closes the container. *)
Fixpoint dumps_at (level : nat) (v : json) : string :=
  let inner := nl ++ repeat_string "  " (S level) in
  let close := nl ++ repeat_string "  " level in
  match v with
  | JNull => "null"
  | JBool true => "true"
  | JBool false => "false"
  | JInt z => str_int z
  | JStr s => dumps_str s
  | JList [] => "[]"
  | JList items =>
      "[" ++ inner ++ join ("," ++ inner) (map (dumps_at (S level)) items) ++ close ++ "]"
  | JObj [] => "{}"
  | JObj fields =>
      "{" ++ inner
      ++ join ("," ++ inner)
              (map (fun kv => dumps_str (fst kv) ++ ": " ++ dumps_at (S level) (snd kv)) fields)
      ++ close ++ "}"
  end.

Definition json_dumps (v : json) : string := dumps_at 0 v.

End Json.

(* ===================================================================== *)
(** ** Effects: output, requests, exit and exceptions *)
(* ===================================================================== *)

Module Run.
Import Text Json.

(** The exceptions the script can let escape. *)
Inductive exn : Type :=
| AttributeError   (* a method such as [.get] or [.replace] on a value without it *)
| TypeError        (* arithmetic, [len] or iteration on a value of the wrong type *)
| RequestException (* a failure of [requests] other than connection and timeout *).

(** The keyword arguments of [requests.request]. *)
Record request : Type := mkRequest {
  req_method : string;
  req_url : string;
  req_headers : list (string * string);
  req_json : option json;
  req_params : option (list (string * json));
  req_timeout : Z
}.

(** What the process has done so far: the messages echoed to standard
    output and to standard error (one entry per [click.echo], without
    the newline [click.echo] appends) and the requests sent. *)
Record world : Type := mkWorld {
  stdout : list string;
  stderr : list string;
  sent : list request
}.

Definition start : world := mkWorld [] [] [].

(** How a computation ends: with a value, by [sys.exit(code)], or with
    an exception nothing catches. *)
Inductive outcome (A : Type) : Type :=
| Return (a : A)
| Exit (code : Z)
| Raise (e : exn).
Arguments Return {A} a.
Arguments Exit {A} code.
Arguments Raise {A} e.

Definition M (A : Type) : Type := world -> outcome A * world.

Definition ret {A} (a : A) : M A := fun w => (Return a, w).

Definition bind {A B} (m : M A) (k : A -> M B) : M B :=
  fun w =>
    match m w with
    | (Return a, w') => k a w'
    | (Exit code, w') => (Exit code, w')
    | (Raise e, w') => (Raise e, w')
    end.

(** A computation without effect on the world. *)
Definition lift {A} (o : outcome A) : M A := fun w => (o, w).

Definition sys_exit {A} (code : Z) : M A := fun w => (Exit code, w).
Definition raise {A} (e : exn) : M A := fun w => (Raise e, w).

(** [click.echo(message)] for a string. *)
Definition echo (message : string) : M unit :=
  fun w => (Return tt, mkWorld (stdout w ++ [message]) (stderr w) (sent w)).

(** [click.echo(message, err=True)]. *)
Definition echo_err (message : string) : M unit :=
  fun w => (Return tt, mkWorld (stdout w) (stderr w ++ [message]) (sent w)).

(** [click.echo(v)] for a decoded value: [None] prints an empty line,
    anything that is not a string is printed as [str(v)]. *)
Definition echo_value (v : json) : M unit :=
  match v with
  | JNull => echo ""
  | _ => echo (py_str v)
  end.

Declare Scope run_scope.
Delimit Scope run_scope with run.
Notation "x <- m ;; k" := (bind m (fun x => k))
  (at level 61, m at next level, right associativity) : run_scope.
Notation "m ;; k" := (bind m (fun _ => k))
  (at level 61, right associativity) : run_scope.
#[local] Open Scope run_scope.

(** [for x in items: body(x)]. *)
Fixpoint for_each {A} (items : list A) (body : A -> M unit) : M unit :=
  match items with
  | [] => ret tt
  | x :: rest => body x ;; for_each rest body
  end.

(** *** Operations of Python on decoded values *)

(** [d.get(key, default)]: only a [dict] has the method. *)
Definition get (d : json) (key : string) (default : json) : M json :=
  match d with
  | JObj fields =>
      ret (match lookup key fields with Some v => v | None => default end)
  | _ => raise AttributeError
  end.

(** [a - b]: integers, a [bool] counting as 0 or 1. *)
Definition as_int (v : json) : option Z :=
  match v with
  | JInt z => Some z
  | JBool b => Some (if b then 1 else 0)
  | _ => None
  end.

Definition py_sub (a b : json) : M Z :=
  match as_int a, as_int b with
  | Some x, Some y => ret (x - y)
  | _, _ => raise TypeError
  end.

Fixpoint chars (s : string) : list json :=
  match s with
  | EmptyString => []
  | String c s' => JStr (String c "") :: chars s'
  end.

(** The items a [for] loop visits: the elements of a list, the keys of
    a [dict], the characters of a string. *)
Definition py_iter (v : json) : M (list json) :=
  match v with
  | JList items => ret items
  | JObj fields => ret (map (fun kv => JStr (fst kv)) fields)
  | JStr s => ret (chars s)
  | _ => raise TypeError
  end.

(** [len(v)]. *)
Definition py_len (v : json) : M Z :=
  match v with
  | JList items => ret (Z.of_nat (List.length items))
  | JObj fields => ret (Z.of_nat (List.length fields))
  | JStr s => ret (Z.of_nat (String.length s))
  | _ => raise TypeError
  end.

(** *** The surroundings of the process *)

(** What [requests.request] does with a request: it fails to connect,
    times out, fails otherwise, or hands back a response with a status
    code and a body, [None] standing for a body [response.json()]
    cannot decode. *)
Inductive http_result : Type :=
| ConnectionError
| Timeout
| OtherFailure
| Response (status_code : Z) (body : option json).

(** A [datetime]: the reading of the wall clock in microseconds and the
    offset of its time zone ([None] for a naive value). *)
Record datetime : Type := mkDatetime {
  wall : Z;
  tzinfo : option Z
}.

(** A normalised [timedelta]: [0 <= seconds < 86400] and
    [0 <= microseconds < 1000000], the sign is carried by [days]. *)
Record timedelta : Type := mkTimedelta {
  days : Z;
  seconds : Z;
  microseconds : Z
}.

Definition timedelta_of_micros (d : Z) : timedelta :=
  mkTimedelta (d / 86400000000) ((d mod 86400000000) / 1000000) (d mod 1000000).

(** The surroundings: the content of the [.credentials] file when it
    exists, the network, [datetime.fromisoformat] ([None] standing for
    [ValueError]) and the clock, read as one instant for the whole run
    (a run lasts one request), with the offset of the local time zone. *)
Record env : Type := mkEnv {
  credentials : option string;
  network : request -> http_result;
  fromisoformat : string -> option datetime;
  utc_now : Z;
  local_offset : Z
}.

(** [datetime.now(tz)]. *)
Definition datetime_now (E : env) (tz : option Z) : datetime :=
  match tz with
  | Some offset => mkDatetime (utc_now E + offset) tz
  | None => mkDatetime (utc_now E + local_offset E) None
  end.

(** [a - b] for two datetimes of the same time zone. *)
Definition datetime_sub (a b : datetime) : timedelta :=
  timedelta_of_micros (wall a - wall b).

(** [requests.request(...)]: the request is recorded as sent. *)
Definition requests_request (E : env) (r : request) : M http_result :=
  fun w => (Return (network E r), mkWorld (stdout w) (stderr w) (sent w ++ [r])).

End Run.

(* ===================================================================== *)
(** ** The command-line interface of [click] *)
(* ===================================================================== *)

(** The decorators of the script declare a group of commands, each with
    options and arguments; [click] turns the words of the command line
    into the keyword arguments of the command's function.  This module
    holds that reading of the command line for the kinds of parameter
    the script declares: options with a value ([--name value] or
    [--name=value]), flags, positional arguments and the [--help] flag
    every command has.  The text of a help page or of a usage error is
    not recorded, only that it was shown. *)

Module Click.
Import Text.

Inductive param_type : Type :=
| STRING
| INT
| Choice (choices : list string).

(** The value a parameter hands to the function. *)
Inductive value : Type :=
| VNone
| VStr (s : string)
| VInt (z : Z)
| VBool (b : bool).

Inductive param : Type :=
| Option_ (flag dest : string) (type : param_type) (required : bool) (default : value)
| Flag (flag dest : string)
| Argument (dest : string).

Inductive usage_error : Type :=
| NoSuchCommand (name : string)
| MissingCommand
| NoSuchOption (flag : string)
| OptionRequiresValue (flag : string)
| OptionTakesNoValue (flag : string)
| BadParameter          (* a required parameter is missing or a value is refused *)
| UnexpectedArgument.

Inductive parsed (A : Type) : Type :=
| Parsed (a : A)
| Help
| Usage (e : usage_error).
Arguments Parsed {A} a.
Arguments Help {A}.
Arguments Usage {A} e.

(** A word is read as an option when it starts with a dash and has
    more than one character. *)
Definition is_option_word (w : string) : bool :=
  match w with
  | String "-" (String _ _) => true
  | _ => false
  end.

(** [w.split("=", 1)]. *)
Fixpoint split_eq (w : string) : string * option string :=
  match w with
  | EmptyString => ("", None)
  | String c w' =>
      if Ascii.eqb c "=" then ("", Some w')
      else let (name, explicit) := split_eq w' in (String c name, explicit)
  end.

(** The name an unknown option is reported under: the long name, or the
    first letter of a bundle of short ones. *)
Definition reported_option (w : string) : string :=
  match w with
  | String "-" (String "-" _) => fst (split_eq w)
  | String "-" (String c _) => String "-" (String c "")
  | _ => w
  end.

Fixpoint find_option (flag : string) (params : list param) : option param :=
  match params with
  | [] => None
  | Option_ f dest type required default :: rest =>
      if String.eqb f flag then Some (Option_ f dest type required default)
      else find_option flag rest
  | Flag f dest :: rest =>
      if String.eqb f flag then Some (Flag f dest) else find_option flag rest
  | Argument _ :: rest => find_option flag rest
  end.

(** What the first pass over the words collects: the raw values of the
    options in the order given, the flags that were set, the positional
    words, and whether [--help] was seen. *)
Record scanned : Type := mkScanned {
  raw_options : list (string * string);
  raw_flags : list string;
  positionals : list string;
  help_seen : bool
}.

(** The first pass.  With [interspersed] options and positional words
    may be mixed (a command); without it the first positional word ends
    the options (the group). *)
Fixpoint scan (interspersed : bool) (params : list param) (words : list string)
    (acc : scanned) : parsed scanned :=
  match words with
  | [] => Parsed acc
  | w :: rest =>
      if String.eqb w "--" then
        Parsed (mkScanned (raw_options acc) (raw_flags acc)
                          (positionals acc ++ rest) (help_seen acc))
      else if is_option_word w then
        let (name, explicit) := split_eq w in
        if String.eqb name "--help" then
          match explicit with
          | Some _ => Usage (OptionTakesNoValue name)
          | None =>
              scan interspersed params rest
                   (mkScanned (raw_options acc) (raw_flags acc) (positionals acc) true)
          end
        else
          match find_option name params with
          | Some (Flag _ dest) =>
              match explicit with
              | Some _ => Usage (OptionTakesNoValue name)
              | None =>
                  scan interspersed params rest
                       (mkScanned (raw_options acc) (raw_flags acc ++ [dest])
                                  (positionals acc) (help_seen acc))
              end
          | Some (Option_ _ dest _ _ _) =>
              match explicit with
              | Some v =>
                  scan interspersed params rest
                       (mkScanned (raw_options acc ++ [(dest, v)]) (raw_flags acc)
                                  (positionals acc) (help_seen acc))
              | None =>
                  match rest with
                  | [] => Usage (OptionRequiresValue name)
                  | v :: rest' =>
                      scan interspersed params rest'
                           (mkScanned (raw_options acc ++ [(dest, v)]) (raw_flags acc)
                                      (positionals acc) (help_seen acc))
                  end
              end
          | _ => Usage (NoSuchOption (reported_option w))
          end
      else if interspersed then
        scan interspersed params rest
             (mkScanned (raw_options acc) (raw_flags acc) (positionals acc ++ [w])
                        (help_seen acc))
      else
        Parsed (mkScanned (raw_options acc) (raw_flags acc)
                          (positionals acc ++ w :: rest) (help_seen acc))
  end.

Definition nothing_scanned : scanned := mkScanned [] [] [] false.

(** The last value given for an option. *)
Fixpoint last_value (dest : string) (raw : list (string * string)) : option string :=
  match raw with
  | [] => None
  | (d, v) :: rest =>
      match last_value dest rest with
      | Some v' => Some v'
      | None => if String.eqb d dest then Some v else None
      end
  end.

Definition convert (type : param_type) (raw : string) : option value :=
  match type with
  | STRING => Some (VStr raw)
  | INT => option_map VInt (py_int raw)
  | Choice choices =>
      if existsb (String.eqb raw) choices then Some (VStr raw) else None
  end.

(** The second pass: every declared parameter gets its value, from the
    command line or from its default; positional words fill the
    arguments in the order declared.  [None] when a required parameter
    is missing or a value is refused. *)
Fixpoint assign (params : list param) (s : scanned) (words : list string)
    : option (list (string * value) * list string) :=
  match params with
  | [] => Some ([], words)
  | Option_ _ dest type required default :: rest =>
      match last_value dest (raw_options s) with
      | Some raw =>
          match convert type raw, assign rest s words with
          | Some v, Some (vals, extra) => Some ((dest, v) :: vals, extra)
          | _, _ => None
          end
      | None =>
          if required then None
          else match assign rest s words with
               | Some (vals, extra) => Some ((dest, default) :: vals, extra)
               | None => None
               end
      end
  | Flag _ dest :: rest =>
      match assign rest s words with
      | Some (vals, extra) =>
          Some ((dest, VBool (existsb (String.eqb dest) (raw_flags s))) :: vals, extra)
      | None => None
      end
  | Argument dest :: rest =>
      match words with
      | [] => None
      | w :: words' =>
          match assign rest s words' with
          | Some (vals, extra) => Some ((dest, VStr w) :: vals, extra)
          | None => None
          end
      end
  end.

(** The keyword arguments of a command, from the words after its name. *)
Definition parse_command (params : list param) (words : list string)
    : parsed (list (string * value)) :=
  match scan true params words nothing_scanned with
  | Parsed s =>
      if help_seen s then Help
      else match assign params s (positionals s) with
           | None => Usage BadParameter
           | Some (vals, []) => Parsed vals
           | Some (_, _ :: _) => Usage UnexpectedArgument
           end
  | Help => Help
  | Usage e => Usage e
  end.

(** The group: its own options (only [--help]), then the name of the
    command and the words left for it.  Without any word the help page
    is shown. *)
Definition parse_group (argv : list string) : parsed (string * list string) :=
  match argv with
  | [] => Help
  | _ =>
      match scan false [] argv nothing_scanned with
      | Parsed s =>
          if help_seen s then Help
          else match positionals s with
               | [] => Usage MissingCommand
               | name :: rest => Parsed (name, rest)
               end
      | Help => Help
      | Usage e => Usage e
      end
  end.

(** The keyword arguments as the function receives them. *)
Fixpoint kwarg (dest : string) (vals : list (string * value)) : value :=
  match vals with
  | [] => VNone
  | (d, v) :: rest => if String.eqb d dest then v else kwarg dest rest
  end.

Definition kw_str (dest : string) (vals : list (string * value)) : string :=
  match kwarg dest vals with VStr s => s | _ => "" end.

Definition kw_opt_str (dest : string) (vals : list (string * value)) : option string :=
  match kwarg dest vals with VStr s => Some s | _ => None end.

Definition kw_int (dest : string) (vals : list (string * value)) : Z :=
  match kwarg dest vals with VInt z => z | _ => 0 end.

Definition kw_flag (dest : string) (vals : list (string * value)) : bool :=
  match kwarg dest vals with VBool b => b | _ => false end.

End Click.

(* ===================================================================== *)
(** ** The script *)
(* ===================================================================== *)

Module Moltbook.
Import Text Json Run.
#[local] Open Scope run_scope.

Definition BASE_URL : string := "https://www.moltbook.com/api/v1".

Section Script.

Variable E : env.

(** [get_api_key()]. *)
Definition get_api_key : M string :=
  match credentials E with
  | None =>
      echo_err "Error: .credentials file not found" ;;
      echo_err "Create a .credentials file with your API key" ;;
      sys_exit 1
  | Some content => ret (strip content)
  end.

(** [api_request(method, endpoint, json_data=None, params=None)]. *)
Definition api_request (method endpoint : string)
    (json_data : option json) (params : option (list (string * json))) : M json :=
  api_key <- get_api_key ;;
  let headers := [("Authorization", "Bearer " ++ api_key)] in
  let headers :=
    match json_data with
    | Some d =>
        if truthy d then (headers ++ [("Content-Type", "application/json")])%list else headers
    | None => headers
    end in
  let url := BASE_URL ++ endpoint in
  response <- requests_request E (mkRequest method url headers json_data params 30) ;;
  match response with
  | Response status_code body =>
      if status_code =? 404 then
        echo_err "Error: Not found" ;; sys_exit 1
      else if status_code =? 401 then
        echo_err "Error: Authentication failed - check your API key" ;; sys_exit 1
      else if status_code =? 403 then
        echo_err "Error: Permission denied" ;; sys_exit 1
      else
        match body with
        | Some data => ret data
        | None => echo_err "Error: Invalid response from server" ;; sys_exit 1
        end
  | ConnectionError =>
      echo_err "Error: Could not connect to moltbook.com" ;; sys_exit 1
  | Timeout =>
      echo_err "Error: Request timed out" ;; sys_exit 1
  | OtherFailure => raise RequestException
  end.

(** [format_time(iso_string)].  The function prints nothing: it returns
    a string or lets an exception escape. *)
Definition format_time (iso_string : json) : outcome string :=
  if negb (truthy iso_string) then Return "unknown"
  else
    match iso_string with
    | JStr s =>
        match fromisoformat E (replace_char "Z" "+00:00" s) with
        | Some dt =>
            let now := datetime_now E (tzinfo dt) in
            let diff := datetime_sub now dt in
            if days diff >? 0 then Return (str_int (days diff) ++ "d ago")
            else
              let hours := seconds diff / 3600 in
              if hours >? 0 then Return (str_int hours ++ "h ago")
              else
                let minutes := seconds diff / 60 in
                if minutes >? 0 then Return (str_int minutes ++ "m ago")
                else Return "just now"
        | None => Return s
        end
    | _ => Raise AttributeError
    end.

(** [handle_error(data)]. *)
Definition handle_error (data : json) : M unit :=
  success <- get data "success" JNull ;;
  match success with
  | JBool false =>
      error <- get data "error" (JStr "Unknown error") ;;
      hint <- get data "hint" (JStr "") ;;
      retry <- get data "retry_after_minutes" JNull ;;
      echo_err ("Error: " ++ py_str error) ;;
      (if truthy hint then echo_err ("Hint: " ++ py_str hint) else ret tt) ;;
      (if truthy retry then echo_err ("Retry in: " ++ py_str retry ++ " minutes") else ret tt) ;;
      sys_exit 1
  | _ => ret tt
  end.

(** The body of the loop of [feed]. *)
Definition feed_entry (post : json) : M unit :=
  author <- get post "author" (JObj []) ;;
  let author := py_or author (JObj []) in
  author_name <- get author "username" (JStr "anonymous") ;;
  submolt <- get post "submolt" (JObj []) ;;
  let submolt := py_or submolt (JObj []) in
  submolt_name <- get submolt "name" (JStr "general") ;;
  upvotes <- get post "upvotes" (JInt 0) ;;
  downvotes <- get post "downvotes" (JInt 0) ;;
  votes <- py_sub upvotes downvotes ;;
  comments <- get post "comment_count" (JInt 0) ;;
  created_at <- get post "created_at" JNull ;;
  time_ago <- lift (format_time created_at) ;;
  title <- get post "title" (JStr "Untitled") ;;
  echo (nl ++ py_str title) ;;
  echo ("  " ++ str_int_signed votes ++ " points | " ++ py_str comments
        ++ " comments | " ++ time_ago) ;;
  echo ("  by " ++ py_str author_name ++ " in " ++ py_str submolt_name) ;;
  id <- get post "id" JNull ;;
  echo ("  id: " ++ py_str id).

(** [feed(sort, limit, output_json)]. *)
Definition feed (sort : string) (limit : Z) (output_json : bool) : M unit :=
  data <- api_request "GET" "/posts" None
            (Some [("sort", JStr sort); ("limit", JInt limit)]) ;;
  if output_json then echo (json_dumps data)
  else
    posts <- get data "posts" (JList []) ;;
    if negb (truthy posts) then echo "No posts found"
    else
      items <- py_iter posts ;;
      for_each items feed_entry.

(** The two lines [print_comments] echoes for the comment [c]. *)
Definition comment_lines (prefix : string) (c : json) : M unit :=
  author <- get c "author" (JObj []) ;;
  let author := py_or author (JObj []) in
  author_name <- get author "name" (JStr "anonymous") ;;
  upvotes <- get c "upvotes" (JInt 0) ;;
  downvotes <- get c "downvotes" (JInt 0) ;;
  votes <- py_sub upvotes downvotes ;;
  created_at <- get c "created_at" JNull ;;
  time_ago <- lift (format_time created_at) ;;
  echo (prefix ++ py_str author_name ++ " (" ++ str_int_signed votes ++ ") " ++ time_ago) ;;
  content <- get c "content" (JStr "") ;;
  echo (prefix ++ "  " ++ py_str content).

(** [print_comments(comments, indent)].  The recursion descends into
    the value bound to ["replies"], so the search for that key is
    written out as a local loop over the fields of the comment;
    [print_comments_cons] below gives the body as the source has it,
    with [c.get("replies", [])]. *)
Fixpoint print_comments (comments : json) (indent : nat) {struct comments} : M unit :=
  let prefix := repeat_string "  " indent in
  match comments with
  | JList items =>
      (fix loop (items : list json) : M unit :=
         match items with
         | [] => ret tt
         | c :: rest =>
             (comment_lines prefix c ;;
              match c with
              | JObj fields =>
                  (fix find (fields : list (string * json)) : M unit :=
                     match fields with
                     | [] => ret tt
                     | (k, replies) :: more =>
                         if String.eqb k "replies" then
                           if truthy replies then print_comments replies (S indent)
                           else ret tt
                         else find more
                     end) fields
              | _ => raise AttributeError
              end) ;;
             loop rest
         end) items
  | _ =>
      items <- py_iter comments ;;
      for_each items (fun c => comment_lines prefix c ;; raise AttributeError)
  end.

(** [post(post_id, output_json)]. *)
Definition post (post_id : string) (output_json : bool) : M unit :=
  data <- api_request "GET" ("/posts/" ++ post_id) None None ;;
  if output_json then echo (json_dumps data)
  else
    p <- get data "post" (JObj []) ;;
    if negb (truthy p) then echo "Post not found"
    else
      author <- get p "author" (JObj []) ;;
      let author := py_or author (JObj []) in
      author_name <- get author "username" (JStr "anonymous") ;;
      upvotes <- get p "upvotes" (JInt 0) ;;
      downvotes <- get p "downvotes" (JInt 0) ;;
      votes <- py_sub upvotes downvotes ;;
      created_at <- get p "created_at" JNull ;;
      time_ago <- lift (format_time created_at) ;;
      title <- get p "title" (JStr "Untitled") ;;
      echo (nl ++ py_str title) ;;
      echo ("by " ++ py_str author_name ++ " | " ++ str_int_signed votes
            ++ " points | " ++ time_ago) ;;
      echo (repeat_string "-" 40) ;;
      content <- get p "content" (JStr "") ;;
      echo_value content ;;
      echo (repeat_string "-" 40) ;;
      comments <- get data "comments" (JList []) ;;
      if truthy comments then
        n <- py_len comments ;;
        echo (nl ++ "Comments (" ++ str_int n ++ "):") ;;
        print_comments comments 0
      else echo (nl ++ "No comments yet").

(** [create(title, content, submolt)]. *)
Definition create (title content submolt : string) : M unit :=
  data <- api_request "POST" "/posts"
            (Some (JObj [("title", JStr title); ("content", JStr content);
                         ("submolt", JStr submolt)])) None ;;
  handle_error data ;;
  p <- get data "post" (JObj []) ;;
  url <- get p "url" (JStr "") ;;
  let full_url := if truthy url then "https://moltbook.com" ++ py_str url else "" in
  message <- get data "message" (JStr "Post created!") ;;
  echo_value message ;;
  (if negb (String.eqb full_url "") then echo ("URL: " ++ full_url) else ret tt) ;;
  id <- get p "id" JNull ;;
  echo ("ID: " ++ py_str id).

(** [delete(post_id)]. *)
Definition delete (post_id : string) : M unit :=
  data <- api_request "DELETE" ("/posts/" ++ post_id) None None ;;
  handle_error data ;;
  message <- get data "message" (JStr "Post deleted") ;;
  echo_value message.

(** [comment(post_id, content, parent_id)]. *)
Definition comment (post_id content : string) (parent_id : option string) : M unit :=
  let json_data := [("content", JStr content)] in
  let json_data :=
    match parent_id with
    | Some parent =>
        if negb (String.eqb parent "")
        then (json_data ++ [("parent_id", JStr parent)])%list else json_data
    | None => json_data
    end in
  data <- api_request "POST" ("/posts/" ++ post_id ++ "/comments")
            (Some (JObj json_data)) None ;;
  handle_error data ;;
  c <- get data "comment" (JObj []) ;;
  message <- get data "message" (JStr "Comment added!") ;;
  echo_value message ;;
  id <- get c "id" JNull ;;
  echo ("Comment ID: " ++ py_str id).

(** [user(username, output_json)]. *)
Definition user (username : string) (output_json : bool) : M unit :=
  data <- api_request "GET" ("/users/" ++ username) None None ;;
  if output_json then echo (json_dumps data)
  else
    u <- get data "user" (JObj []) ;;
    if negb (truthy u) then echo "User not found"
    else
      fallback <- get u "username" (JStr "Unknown") ;;
      name <- get u "name" fallback ;;
      echo (nl ++ py_str name) ;;
      handle <- get u "username" (JStr "") ;;
      echo ("@" ++ py_str handle) ;;
      bio <- get u "bio" JNull ;;
      (if truthy bio then
         bio' <- get u "bio" JNull ;; echo (nl ++ py_str bio')
       else ret tt) ;;
      karma <- get u "karma" (JInt 0) ;;
      echo (nl ++ "Karma: " ++ py_str karma) ;;
      followers <- get u "follower_count" (JInt 0) ;;
      echo ("Followers: " ++ py_str followers) ;;
      following <- get u "following_count" (JInt 0) ;;
      echo ("Following: " ++ py_str following) ;;
      created_at <- get u "created_at" JNull ;;
      joined <- lift (format_time created_at) ;;
      echo ("Joined: " ++ joined).

(** *** The group [cli] and its commands *)

(** A command registered under [@cli.command()]: its name, the
    parameters its decorators declare, and its function applied to the
    keyword arguments. *)
Record command : Type := mkCommand {
  cmd_name : string;
  cmd_params : list Click.param;
  cmd_callback : list (string * Click.value) -> M unit
}.

Definition feed_command : command :=
  mkCommand "feed"
    [Click.Option_ "--sort" "sort" (Click.Choice ["hot"; "new"; "top"]) false (Click.VStr "hot");
     Click.Option_ "--limit" "limit" Click.INT false (Click.VInt 20);
     Click.Flag "--json" "output_json"]
    (fun kw => feed (Click.kw_str "sort" kw) (Click.kw_int "limit" kw)
                    (Click.kw_flag "output_json" kw)).

Definition post_command : command :=
  mkCommand "post"
    [Click.Argument "post_id"; Click.Flag "--json" "output_json"]
    (fun kw => post (Click.kw_str "post_id" kw) (Click.kw_flag "output_json" kw)).

Definition create_command : command :=
  mkCommand "create"
    [Click.Option_ "--title" "title" Click.STRING true Click.VNone;
     Click.Option_ "--content" "content" Click.STRING true Click.VNone;
     Click.Option_ "--submolt" "submolt" Click.STRING false (Click.VStr "general")]
    (fun kw => create (Click.kw_str "title" kw) (Click.kw_str "content" kw)
                      (Click.kw_str "submolt" kw)).

Definition delete_command : command :=
  mkCommand "delete"
    [Click.Argument "post_id"]
    (fun kw => delete (Click.kw_str "post_id" kw)).

Definition comment_command : command :=
  mkCommand "comment"
    [Click.Argument "post_id";
     Click.Option_ "--content" "content" Click.STRING true Click.VNone;
     Click.Option_ "--reply-to" "parent_id" Click.STRING false Click.VNone]
    (fun kw => comment (Click.kw_str "post_id" kw) (Click.kw_str "content" kw)
                       (Click.kw_opt_str "parent_id" kw)).

Definition user_command : command :=
  mkCommand "user"
    [Click.Argument "username"; Click.Flag "--json" "output_json"]
    (fun kw => user (Click.kw_str "username" kw) (Click.kw_flag "output_json" kw)).

(** The commands of the group, in the order of the source. *)
Definition commands : list command :=
  [feed_command; post_command; create_command; delete_command;
   comment_command; user_command].

Fixpoint get_command (name : string) (cmds : list command) : option command :=
  match cmds with
  | [] => None
  | c :: rest => if String.eqb (cmd_name c) name then Some c else get_command name rest
  end.

(** How the process ends. *)
Inductive status : Type :=
| Exited (code : Z)
| Crashed (e : exn)
| UsageError (e : Click.usage_error)
| HelpShown.

(** The exit status the shell sees. *)
Definition exit_code (s : status) : Z :=
  match s with
  | Exited code => code
  | Crashed _ => 1
  | UsageError _ => 2
  | HelpShown => 0
  end.

(** [cli()] on the words of the command line: the status of the
    process and what it has printed and sent. *)
Definition cli (argv : list string) : status * world :=
  match Click.parse_group argv with
  | Click.Parsed (name, words) =>
      match get_command name commands with
      | None => (UsageError (Click.NoSuchCommand name), start)
      | Some c =>
          match Click.parse_command (cmd_params c) words with
          | Click.Parsed kw =>
              match cmd_callback c kw start with
              | (Return _, w) => (Exited 0, w)
              | (Exit code, w) => (Exited code, w)
              | (Raise e, w) => (Crashed e, w)
              end
          | Click.Help => (HelpShown, start)
          | Click.Usage e => (UsageError e, start)
          end
      end
  | Click.Help => (HelpShown, start)
  | Click.Usage e => (UsageError e, start)
  end.

End Script.

End Moltbook.

(* ===================================================================== *)
(** ** What the specification says, and sample surroundings *)
(* ===================================================================== *)

Module Spec.
Import Text Json Run Moltbook.

(** The time between a timestamp and now, read in the time zone of the
    timestamp. *)
Definition elapsed (E : env) (dt : datetime) : timedelta :=
  datetime_sub (datetime_now E (tzinfo dt)) dt.

(** The relative time in the words of the specification: the largest
    unit that is not zero wins, days before hours of the seconds within
    the day before minutes, and the units are never combined. *)
Definition relative_time (diff : timedelta) : string :=
  if 1 <=? days diff then str_int (days diff) ++ "d ago"
  else if 3600 <=? seconds diff then str_int (seconds diff / 3600) ++ "h ago"
  else if 60 <=? seconds diff then str_int (seconds diff / 60) ++ "m ago"
  else "just now".

(** [d.get(key, default)] on the fields of a [dict]. *)
Definition field (key : string) (default : json) (fields : list (string * json)) : json :=
  match lookup key fields with
  | Some v => v
  | None => default
  end.

(** The lines [handle_error] writes to standard error for a failure
    envelope: the error, then the hint and the retry delay when they are
    truthy. *)
Definition error_report (fields : list (string * json)) : list string :=
  ["Error: " ++ py_str (field "error" (JStr "Unknown error") fields)]
  ++ (if truthy (field "hint" (JStr "") fields)
      then ["Hint: " ++ py_str (field "hint" (JStr "") fields)] else [])
  ++ (if truthy (field "retry_after_minutes" JNull fields)
      then ["Retry in: " ++ py_str (field "retry_after_minutes" JNull fields) ++ " minutes"]
      else []).

(** The one-line message of a fatal HTTP status. *)
Definition status_message (status_code : Z) : string :=
  if status_code =? 404 then "Error: Not found"
  else if status_code =? 401 then "Error: Authentication failed - check your API key"
  else "Error: Permission denied".

Definition fatal_status (status_code : Z) : bool :=
  (status_code =? 404) || (status_code =? 401) || (status_code =? 403).

(** The world after more output. *)
Definition printed (w : world) (lines : list string) : world :=
  mkWorld (stdout w ++ lines) (stderr w) (sent w).

Definition complained (w : world) (lines : list string) : world :=
  mkWorld (stdout w) (stderr w ++ lines) (sent w).

Definition requested (w : world) (r : request) : world :=
  mkWorld (stdout w) (stderr w) (sent w ++ [r]).

(** *** Optional nested fields *)

(** A value [.get] can be called on after [or {}]: a [dict], or
    anything falsy. *)
Definition optional_dict (v : json) : bool :=
  match v with
  | JObj _ => true
  | _ => negb (truthy v)
  end.

(** A value [format_time] takes: a string, or anything falsy. *)
Definition optional_text (v : json) : bool :=
  match v with
  | JStr _ => true
  | _ => negb (truthy v)
  end.

Definition fields_of (v : json) : list (string * json) :=
  match v with
  | JObj fields => fields
  | _ => []
  end.

(** The name found under [inner] in the object under [outer], with its
    default: the author of a post is [nested_name "author" "username"
    "anonymous"], its submolt [nested_name "submolt" "name" "general"],
    the author of a comment [nested_name "author" "name" "anonymous"]. *)
Definition nested_name (outer inner default : string) (fields : list (string * json)) : json :=
  field inner (JStr default) (fields_of (py_or (field outer (JObj []) fields) (JObj []))).

(** [upvotes - downvotes] when both are integers. *)
Definition score (fields : list (string * json)) : option Z :=
  match as_int (field "upvotes" (JInt 0) fields), as_int (field "downvotes" (JInt 0) fields) with
  | Some u, Some d => Some (u - d)
  | _, _ => None
  end.

(** The fields the header of a comment or of a post page can be made
    from: the author is an object when it is there, the vote counts are
    integers, the timestamp is a string when it is there. *)
Definition renderable_entry (fields : list (string * json)) : bool :=
  optional_dict (field "author" (JObj []) fields)
  && (match score fields with Some _ => true | None => false end)
  && optional_text (field "created_at" JNull fields).

(** The fields of a post the feed can render: author and submolt are
    objects when they are there, the vote counts are integers, the
    timestamp is a string when it is there. *)
Definition renderable_post (fields : list (string * json)) : bool :=
  optional_dict (field "author" (JObj []) fields)
  && optional_dict (field "submolt" (JObj []) fields)
  && (match score fields with Some _ => true | None => false end)
  && optional_text (field "created_at" JNull fields).

(** The text [format_time] returns, when it returns. *)
Definition time_text (E : env) (v : json) : string :=
  match format_time E v with
  | Return s => s
  | _ => ""
  end.

Definition score_text (fields : list (string * json)) : string :=
  match score fields with
  | Some votes => str_int_signed votes
  | None => ""
  end.

(** The four lines of a post in the feed. *)
Definition feed_lines (E : env) (fields : list (string * json)) : list string :=
  [nl ++ py_str (field "title" (JStr "Untitled") fields);
   "  " ++ score_text fields ++ " points | "
     ++ py_str (field "comment_count" (JInt 0) fields) ++ " comments | "
     ++ time_text E (field "created_at" JNull fields);
   "  by " ++ py_str (nested_name "author" "username" "anonymous" fields)
     ++ " in " ++ py_str (nested_name "submolt" "name" "general" fields);
   "  id: " ++ py_str (field "id" JNull fields)].

(** The line [click.echo] prints for a value. *)
Definition echoed (v : json) : string :=
  match v with
  | JNull => ""
  | _ => py_str v
  end.

(** The lines of a post before its comments. *)
Definition post_lines (E : env) (fields : list (string * json)) : list string :=
  [nl ++ py_str (field "title" (JStr "Untitled") fields);
   "by " ++ py_str (nested_name "author" "username" "anonymous" fields)
     ++ " | " ++ score_text fields ++ " points | "
     ++ time_text E (field "created_at" JNull fields);
   repeat_string "-" 40;
   echoed (field "content" (JStr "") fields);
   repeat_string "-" 40].

(** The posts of a feed the loop can render, and what it prints. *)
Definition renderable_posts (items : list json) : bool :=
  forallb (fun p => match p with
                    | JObj fields => renderable_post fields
                    | _ => false
                    end) items.

Definition feed_page (E : env) (items : list json) : list string :=
  flat_map (fun p => feed_lines E (fields_of p)) items.

(** The three ways a post or a comment can be without the name of its
    author: no author, a null author, an author without the key. *)
Definition lacks_name (outer inner : string) (fields : list (string * json)) : Prop :=
  lookup outer fields = None
  \/ lookup outer fields = Some JNull
  \/ exists a, lookup outer fields = Some (JObj a) /\ lookup inner a = None.

(** *** Comment trees *)

(** A comment as the specification has it: what its two lines show and
    its replies, in order. *)
Inductive comment_tree : Type :=
| Comment (author_name : string) (votes : Z) (relative : string) (content : string)
          (replies : list comment_tree).

(** Induction on a comment tree, with the property at hand for every
    reply. *)
Section CommentTreeInduction.

Variable P : comment_tree -> Prop.
Hypothesis P_comment :
  forall author_name votes relative content replies,
    Forall P replies -> P (Comment author_name votes relative content replies).

Fixpoint comment_tree_induction (c : comment_tree) : P c :=
  match c with
  | Comment author_name votes relative content replies =>
      P_comment author_name votes relative content replies
        ((fix all (replies : list comment_tree) : Forall P replies :=
            match replies with
            | [] => Forall_nil P
            | r :: replies' => Forall_cons r (comment_tree_induction r) (all replies')
            end) replies)
  end.

End CommentTreeInduction.

(** The renderer in the words of the specification: the header line and
    the content line of a comment at its indent, then its replies one
    level deeper, then the next sibling. *)
Fixpoint render (indent : nat) (c : comment_tree) : list string :=
  match c with
  | Comment author_name votes relative content replies =>
      (repeat_string "  " indent ++ author_name ++ " (" ++ str_int_signed votes ++ ") "
         ++ relative)
      :: (repeat_string "  " indent ++ "  " ++ content)
      :: flat_map (render (S indent)) replies
  end.

Definition render_comments (comments : list comment_tree) (indent : nat) : list string :=
  flat_map (render indent) comments.


(** A decoded value read as a comment: [reads_as E v c] holds when [v]
    is a [dict] the renderer accepts, [c] carries what its lines show,
    and its replies, when there are any, are a list whose items read as
    the replies of [c], one by one. *)
Fixpoint reads_as (E : env) (v : json) (c : comment_tree) {struct c} : bool :=
  match c with
  | Comment author_name votes relative content replies =>
      match v with
      | JObj fields =>
          renderable_entry fields
          && String.eqb author_name (py_str (nested_name "author" "name" "anonymous" fields))
          && (match score fields with Some z => votes =? z | None => false end)
          && String.eqb relative (time_text E (field "created_at" JNull fields))
          && String.eqb content (py_str (field "content" (JStr "") fields))
          && (match field "replies" (JList []) fields with
              | JList items =>
                  (fix all (replies : list comment_tree) (items : list json)
                       {struct replies} : bool :=
                     match replies, items with
                     | [], [] => true
                     | c' :: replies', v' :: items' => reads_as E v' c' && all replies' items'
                     | _, _ => false
                     end) replies items
              | other => negb (truthy other)
                         && match replies with [] => true | _ => false end
              end)
      | _ => false
      end
  end.

Fixpoint all_read_as (E : env) (comments : list comment_tree) (items : list json) : bool :=
  match comments, items with
  | [], [] => true
  | c :: comments', v :: items' => reads_as E v c && all_read_as E comments' items'
  | _, _ => false
  end.

(** The tree of the specification:
    [[{content:"a", replies:[{content:"b", replies:[]}]}]]. *)
Definition sample_comments : json :=
  JList [JObj [("content", JStr "a");
               ("replies", JList [JObj [("content", JStr "b"); ("replies", JList [])]])]].

Definition sample_tree : list comment_tree :=
  [Comment "anonymous" 0 "unknown" "a" [Comment "anonymous" 0 "unknown" "b" []]].

(** The request [api_request] sends for the key read from the
    credentials file. *)
Definition request_of (key method endpoint : string)
    (json_data : option json) (params : option (list (string * json))) : request :=
  mkRequest method (BASE_URL ++ endpoint)
    (match json_data with
     | Some d =>
         if truthy d
         then [("Authorization", "Bearer " ++ strip key);
               ("Content-Type", "application/json")]
         else [("Authorization", "Bearer " ++ strip key)]
     | None => [("Authorization", "Bearer " ++ strip key)]
     end)
    json_data params 30.

(** *** Sample surroundings *)

(** A clock that reads 2026-01-30 13:30:00 UTC (in microseconds since
    some origin) and a parser that knows one timestamp, ninety minutes
    before that. *)
Definition sample_now : Z := 1000000000000000.

Definition sample_fromisoformat (s : string) : option datetime :=
  if String.eqb s "2026-01-30T12:00:00+00:00"
  then Some (mkDatetime (sample_now - 90 * 60 * 1000000) (Some 0))
  else None.

(** A server that answers every request with the same status and body. *)
Definition sample_env (status_code : Z) (body : json) : env :=
  mkEnv (Some "test_api_key") (fun _ => Response status_code (Some body))
        sample_fromisoformat sample_now 0.

(** A post with an id and nothing else, and the answers of the server
    that carry it. *)
Definition bare_post : list (string * json) := [("id", JStr "abc123")].

Definition bare_feed : json := JObj [("posts", JList [JObj bare_post])].

Definition bare_page : json := JObj [("post", JObj bare_post)].

(** The failure envelope of the specification. *)
Definition sample_failure : json :=
  JObj [("success", JBool false); ("error", JStr "E"); ("hint", JStr "H");
        ("retry_after_minutes", JInt 5)].

End Spec.

(* ===================================================================== *)
(** ** Conduct of the commands *)
(* ===================================================================== *)

(** What can be said of a whole command: which of its steps may end the
    process, which only print, and what each command prints for a
    response of the expected shape. *)

Module Conduct.
Import Text Json Run Moltbook Spec.

(** Induction on a decoded value, with the property at hand for every
    item of a list and every value of a [dict]. *)
Section JsonInduction.

Variable P : json -> Prop.
Hypothesis P_null : P JNull.
Hypothesis P_bool : forall b, P (JBool b).
Hypothesis P_int : forall z, P (JInt z).
Hypothesis P_str : forall s, P (JStr s).
Hypothesis P_list : forall items, Forall P items -> P (JList items).
Hypothesis P_obj : forall fields, Forall (fun kv => P (snd kv)) fields -> P (JObj fields).

Fixpoint json_induction (v : json) : P v :=
  match v with
  | JNull => P_null
  | JBool b => P_bool b
  | JInt z => P_int z
  | JStr s => P_str s
  | JList items =>
      P_list items
        ((fix all (items : list json) : Forall P items :=
            match items with
            | [] => Forall_nil P
            | v' :: items' => Forall_cons v' (json_induction v') (all items')
            end) items)
  | JObj fields =>
      P_obj fields
        ((fix all (fields : list (string * json))
            : Forall (fun kv => P (snd kv)) fields :=
            match fields with
            | [] => Forall_nil _
            | kv :: fields' =>
                Forall_cons (P := fun kv => P (snd kv)) kv
                            (json_induction (snd kv)) (all fields')
            end) fields)
  end.

End JsonInduction.

(** A step that only prints: it adds lines to standard output, leaves
    standard error and the requests alone and never ends the process by
    [sys.exit]. *)
Definition quiet {A} (m : M A) : Prop :=
  forall w,
    (exists out, snd (m w) = printed w out) /\
    (forall code, fst (m w) <> Exit code).

(** A step that checks before anything is shown: it prints nothing on
    standard output, sends at most [n] requests, and either goes on
    without a word or ends the process with status 1 after writing to
    standard error. *)
Definition gate {A} (n : nat) (m : M A) : Prop :=
  forall w, exists err req,
    snd (m w) = mkWorld (stdout w) (stderr w ++ err) (sent w ++ req) /\
    (List.length req <= n)%nat /\
    match fst (m w) with
    | Exit code => code = 1 /\ err <> []
    | _ => err = []
    end.

(** A command in good order: at most [n] requests; when it ends by
    [sys.exit] the status is 1, standard error has the reason and
    nothing has been printed on standard output; otherwise standard
    error stays empty-handed. *)
Definition orderly {A} (n : nat) (m : M A) : Prop :=
  forall w, exists out err req,
    snd (m w) = mkWorld (stdout w ++ out) (stderr w ++ err) (sent w ++ req) /\
    (List.length req <= n)%nat /\
    match fst (m w) with
    | Exit code => code = 1 /\ out = [] /\ err <> []
    | _ => err = []
    end.

(** The status of the process for the way the function of a command
    ends. *)
Definition status_of (o : outcome unit) : status :=
  match o with
  | Return _ => Exited 0
  | Exit code => Exited code
  | Raise e => Crashed e
  end.

(** The two lines of a missing credentials file. *)
Definition credentials_report : list string :=
  ["Error: .credentials file not found";
   "Create a .credentials file with your API key"].

(** The line of a request that got no usable answer. *)
Definition transport_message (r : http_result) : string :=
  match r with
  | ConnectionError => "Error: Could not connect to moltbook.com"
  | Timeout => "Error: Request timed out"
  | _ => "Error: Invalid response from server"
  end.

(** The profile of a user as [user] prints it. *)
Definition user_lines (E : env) (u : list (string * json)) : list string :=
  [nl ++ py_str (field "name" (field "username" (JStr "Unknown") u) u);
   "@" ++ py_str (field "username" (JStr "") u)]
  ++ (if truthy (field "bio" JNull u) then [nl ++ py_str (field "bio" JNull u)] else [])
  ++ [nl ++ "Karma: " ++ py_str (field "karma" (JInt 0) u);
      "Followers: " ++ py_str (field "follower_count" (JInt 0) u);
      "Following: " ++ py_str (field "following_count" (JInt 0) u);
      "Joined: " ++ time_text E (field "created_at" JNull u)].

(** What [create] prints once the envelope is accepted. *)
Definition create_lines (data p : list (string * json)) : list string :=
  [echoed (field "message" (JStr "Post created!") data)]
  ++ (if truthy (field "url" (JStr "") p)
      then ["URL: https://moltbook.com" ++ py_str (field "url" (JStr "") p)] else [])
  ++ ["ID: " ++ py_str (field "id" JNull p)].

(** The body [comment] sends. *)
Definition comment_body (content : string) (parent_id : option string) : json :=
  match parent_id with
  | Some parent =>
      if String.eqb parent "" then JObj [("content", JStr content)]
      else JObj [("content", JStr content); ("parent_id", JStr parent)]
  | None => JObj [("content", JStr content)]
  end.

(** A word of the command line that gives the option [flag]: the flag
    itself or the flag followed by an equals sign and a value. *)
Definition names_flag (flag w : string) : bool :=
  String.eqb (fst (Click.split_eq w)) flag.

(** No word of the command line gives the option. *)
Definition without_flag (flag : string) (words : list string) : bool :=
  forallb (fun w => negb (names_flag flag w)) words.

(** The number of comments of a tree, replies included. *)
Fixpoint comment_count (c : comment_tree) : nat :=
  match c with
  | Comment _ _ _ _ replies => S (list_sum (map comment_count replies))
  end.

(** The results [format_time] can give for a string it parses. *)
Inductive relative_form : string -> Prop :=
| form_days (d : Z) : 1 <= d -> relative_form (str_int d ++ "d ago")
| form_hours (h : Z) : 1 <= h <= 23 -> relative_form (str_int h ++ "h ago")
| form_minutes (m : Z) : 1 <= m <= 59 -> relative_form (str_int m ++ "m ago")
| form_now : relative_form "just now".

End Conduct.

(* ===================================================================== *)
(** ** Properties *)
(* ===================================================================== *)

Import Text Json Run Moltbook Spec.
#[local] Open Scope run_scope.

(** *** The relative-time formatter *)

Lemma truthy_JStr (s : string) : s <> "" -> truthy (JStr s) = true.
Proof.
  intros Hs. simpl. destruct (String.eqb_spec s ""); [contradiction | reflexivity].
Qed.

Lemma format_time_parsed (E : env) (s : string) (dt : datetime) :
  s <> "" ->
  fromisoformat E (replace_char "Z" "+00:00" s) = Some dt ->
  format_time E (JStr s) = Return (relative_time (elapsed E dt)).
Proof.
  intros Hs Hparse. unfold format_time.
  rewrite (truthy_JStr s Hs). cbn [negb]. rewrite Hparse.
  unfold relative_time, elapsed.
  set (diff := datetime_sub (datetime_now E (tzinfo dt)) dt).
  destruct (Z.gtb_spec (days diff) 0) as [Hd | Hd];
    destruct (Z.leb_spec 1 (days diff)) as [Hd' | Hd']; try lia; try reflexivity.
  destruct (Z.gtb_spec (seconds diff / 3600) 0) as [Hh | Hh];
    destruct (Z.leb_spec 3600 (seconds diff)) as [Hh' | Hh']; try reflexivity.
  - exfalso. assert (seconds diff / 3600 <= 0) by (apply Z.lt_succ_r, Z.div_lt_upper_bound; lia). lia.
  - exfalso. assert (1 <= seconds diff / 3600) by (apply Z.div_le_lower_bound; lia). lia.
  - destruct (Z.gtb_spec (seconds diff / 60) 0) as [Hm | Hm];
      destruct (Z.leb_spec 60 (seconds diff)) as [Hm' | Hm']; try reflexivity.
    + exfalso. assert (seconds diff / 60 <= 0) by (apply Z.lt_succ_r, Z.div_lt_upper_bound; lia). lia.
    + exfalso. assert (1 <= seconds diff / 60) by (apply Z.div_le_lower_bound; lia). lia.
Qed.

(** Outside strings and falsy values [format_time] calls [.replace] on
    a value that has no such method. *)
Lemma format_time_not_text (E : env) (v : json) :
  truthy v = true -> (forall s, v <> JStr s) -> format_time E v = Raise AttributeError.
Proof.
  intros Hv Hs. unfold format_time. rewrite Hv. cbn [negb].
  destruct v; try reflexivity. contradiction (Hs s). reflexivity.
Qed.

(** C4. [format_time] returns "unknown" for a null or empty input, hands
    an input it cannot parse back as it is (nothing is raised), and
    otherwise returns one bucket of the time elapsed: the days when
    there is at least one, else the hours of the seconds within the day
    when there is at least one, else the minutes, else "just now"; ninety
    minutes give "1h ago", forty-five seconds "just now", three days
    "3d ago". *)
Theorem format_time_buckets (E : env) :
  format_time E JNull = Return "unknown" /\
  format_time E (JStr "") = Return "unknown" /\
  (forall s, s <> "" ->
     fromisoformat E (replace_char "Z" "+00:00" s) = None ->
     format_time E (JStr s) = Return s) /\
  (forall s dt, s <> "" ->
     fromisoformat E (replace_char "Z" "+00:00" s) = Some dt ->
     format_time E (JStr s) = Return (relative_time (elapsed E dt))) /\
  (forall diff,
     (1 <= days diff -> relative_time diff = str_int (days diff) ++ "d ago") /\
     (days diff < 1 -> 3600 <= seconds diff ->
        relative_time diff = str_int (seconds diff / 3600) ++ "h ago") /\
     (days diff < 1 -> 60 <= seconds diff < 3600 ->
        relative_time diff = str_int (seconds diff / 60) ++ "m ago") /\
     (days diff < 1 -> seconds diff < 60 -> relative_time diff = "just now")) /\
  relative_time (timedelta_of_micros (90 * 60 * 1000000)) = "1h ago" /\
  relative_time (timedelta_of_micros (45 * 1000000)) = "just now" /\
  relative_time (timedelta_of_micros (3 * 86400 * 1000000)) = "3d ago".
Proof.
  repeat split; try reflexivity.
  - intros s Hs Hparse. unfold format_time.
    rewrite (truthy_JStr s Hs). cbn [negb]. rewrite Hparse. reflexivity.
  - intros s dt. apply format_time_parsed.
  - intros H. unfold relative_time.
    destruct (Z.leb_spec 1 (days diff)); [reflexivity | lia].
  - intros Hd Hs. unfold relative_time.
    destruct (Z.leb_spec 1 (days diff)); [lia |].
    destruct (Z.leb_spec 3600 (seconds diff)); [reflexivity | lia].
  - intros Hd Hs. unfold relative_time.
    destruct (Z.leb_spec 1 (days diff)); [lia |].
    destruct (Z.leb_spec 3600 (seconds diff)); [lia |].
    destruct (Z.leb_spec 60 (seconds diff)); [reflexivity | lia].
  - intros Hd Hs. unfold relative_time.
    destruct (Z.leb_spec 1 (days diff)); [lia |].
    destruct (Z.leb_spec 3600 (seconds diff)); [lia |].
    destruct (Z.leb_spec 60 (seconds diff)); [lia | reflexivity].
Qed.

Lemma format_time_buckets_witness :
  format_time (sample_env 200 JNull) (JStr "not-a-date") = Return "not-a-date" /\
  format_time (sample_env 200 JNull) (JStr "2026-01-30T12:00:00Z") = Return "1h ago".
Proof.
  destruct (format_time_buckets (sample_env 200 JNull)) as (_ & _ & Hbad & Hok & _).
  split.
  - apply Hbad; [discriminate | reflexivity].
  - rewrite (Hok "2026-01-30T12:00:00Z"
                 (mkDatetime (sample_now - 90 * 60 * 1000000) (Some 0)));
      [reflexivity | discriminate | reflexivity].
Defined.

(** *** Failure envelopes *)

Lemma complained_app (w : world) (l1 l2 : list string) :
  complained (complained w l1) l2 = complained w (l1 ++ l2).
Proof. unfold complained. simpl. rewrite <- app_assoc. reflexivity. Qed.

Lemma complained_nil (w : world) : complained w [] = w.
Proof. destruct w. unfold complained. simpl. rewrite app_nil_r. reflexivity. Qed.

Lemma echo_err_complained (message : string) (w : world) :
  echo_err message w = (Return tt, complained w [message]).
Proof. reflexivity. Qed.

Lemma handle_error_failure (fields : list (string * json)) (w : world) :
  lookup "success" fields = Some (JBool false) ->
  handle_error (JObj fields) w = (Exit 1, complained w (error_report fields)).
Proof.
  intros Hs. unfold handle_error, error_report, get, bind, ret, field.
  rewrite Hs.
  destruct (truthy match lookup "hint" fields with Some v => v | None => JStr "" end);
    destruct (truthy match lookup "retry_after_minutes" fields with
                     | Some v => v | None => JNull end);
    rewrite !echo_err_complained; unfold sys_exit; rewrite ?complained_app;
    reflexivity.
Qed.

Lemma handle_error_success (fields : list (string * json)) (w : world) :
  lookup "success" fields <> Some (JBool false) ->
  handle_error (JObj fields) w = (Return tt, w).
Proof.
  intros Hs. unfold handle_error, get, bind, ret.
  destruct (lookup "success" fields) as [[ | [ | ] | | | | ] | ];
    try reflexivity.
  contradiction Hs. reflexivity.
Qed.

Lemma handle_error_exit_inv (data : json) (w w' : world) (code : Z) :
  handle_error data w = (Exit code, w') ->
  exists fields, data = JObj fields /\ lookup "success" fields = Some (JBool false).
Proof.
  destruct data as [ | b | z | s | items | fields]; try discriminate.
  intros H. exists fields. split; [reflexivity |].
  destruct (lookup "success" fields) as [[ | [ | ] | | | | ] | ] eqn:Hs;
    try reflexivity;
    rewrite handle_error_success in H by (rewrite Hs; discriminate);
    discriminate.
Qed.

(** C6. [handle_error] ends the process with exit code 1, after writing
    the error message and, when present, the hint and the retry delay to
    standard error, exactly when the [success] field of the response is
    [false]; a response without the field goes through with no output.
    For the envelope of the specification the three lines carry E, H
    and 5, and the commands that check the envelope exit with 1. *)
Theorem handle_error_exits_iff_success_false (data : json) (w : world) :
  ((exists w', handle_error data w = (Exit 1, w')) <->
   (exists fields, data = JObj fields /\ lookup "success" fields = Some (JBool false))) /\
  (forall fields, data = JObj fields ->
     lookup "success" fields = Some (JBool false) ->
     handle_error data w = (Exit 1, complained w (error_report fields))) /\
  (forall fields, data = JObj fields ->
     lookup "success" fields = None ->
     handle_error data w = (Return tt, w)) /\
  handle_error sample_failure w
    = (Exit 1, complained w ["Error: E"; "Hint: H"; "Retry in: 5 minutes"]) /\
  (forall E argv,
     credentials E = Some "test_api_key" ->
     (forall r, network E r = Response 200 (Some sample_failure)) ->
     In argv [["create"; "--title"; "t"; "--content"; "c"];
              ["delete"; "abc123"];
              ["comment"; "abc123"; "--content"; "c"]] ->
     fst (cli E argv) = Exited 1 /\
     stdout (snd (cli E argv)) = [] /\
     stderr (snd (cli E argv)) = ["Error: E"; "Hint: H"; "Retry in: 5 minutes"]).
Proof.
  split; [| split; [| split; [| split]]].
  - split.
    + intros [w' H]. eapply handle_error_exit_inv; eassumption.
    + intros (fields & -> & Hs). eexists. apply handle_error_failure, Hs.
  - intros fields -> Hs. apply handle_error_failure, Hs.
  - intros fields -> Hs. apply handle_error_success. rewrite Hs. discriminate.
  - apply handle_error_failure. reflexivity.
  - intros E argv Hcred Hnet Hin.
    simpl in Hin.
    destruct Hin as [<- | [<- | [<- | []]]];
      cbv [cli Click.parse_group]; simpl;
      unfold create, delete, comment, api_request, get_api_key, bind, requests_request;
      rewrite Hcred; simpl; rewrite Hnet; simpl; repeat split; reflexivity.
Qed.

Lemma handle_error_exits_iff_success_false_witness :
  handle_error sample_failure start
    = (Exit 1, complained start (error_report
         [("success", JBool false); ("error", JStr "E"); ("hint", JStr "H");
          ("retry_after_minutes", JInt 5)])) /\
  handle_error (JObj [("posts", JList [])]) start = (Return tt, start) /\
  fst (cli (sample_env 200 sample_failure) ["delete"; "abc123"]) = Exited 1.
Proof.
  pose proof (handle_error_exits_iff_success_false sample_failure start)
    as (_ & Hfail & _ & _ & Hcli).
  pose proof (handle_error_exits_iff_success_false (JObj [("posts", JList [])]) start)
    as (_ & _ & Habsent & _).
  split; [| split].
  - apply Hfail; reflexivity.
  - apply (Habsent [("posts", JList [])]); reflexivity.
  - apply (Hcli (sample_env 200 sample_failure) ["delete"; "abc123"]).
    + reflexivity.
    + intros r. reflexivity.
    + simpl. right. left. reflexivity.
Defined.

(** C9. In a failure envelope, a hint that is the empty string and a
    retry delay that is 0 or null are left out: each optional line is
    printed when its field is truthy, not when it is present.  The error
    line is printed and the process exits with 1 all the same. *)
Theorem handle_error_omits_falsy_lines (fields : list (string * json)) (w : world) :
  lookup "success" fields = Some (JBool false) ->
  let error_line := "Error: " ++ py_str (field "error" (JStr "Unknown error") fields) in
  let hint := field "hint" (JStr "") fields in
  let retry := field "retry_after_minutes" JNull fields in
  let hint_line := "Hint: " ++ py_str hint in
  let retry_line := "Retry in: " ++ py_str retry ++ " minutes" in
  handle_error (JObj fields) w
    = (Exit 1, complained w (error_line
                              :: (if truthy hint then [hint_line] else [])
                              ++ (if truthy retry then [retry_line] else []))) /\
  (lookup "hint" fields = Some (JStr "") ->
   handle_error (JObj fields) w
     = (Exit 1, complained w (error_line :: (if truthy retry then [retry_line] else [])))) /\
  (lookup "retry_after_minutes" fields = Some (JInt 0)
   \/ lookup "retry_after_minutes" fields = Some JNull ->
   handle_error (JObj fields) w
     = (Exit 1, complained w (error_line :: (if truthy hint then [hint_line] else [])))) /\
  (lookup "hint" fields = Some (JStr "") ->
   lookup "retry_after_minutes" fields = Some (JInt 0)
   \/ lookup "retry_after_minutes" fields = Some JNull ->
   handle_error (JObj fields) w = (Exit 1, complained w [error_line])).
Proof.
  intros Hs error_line hint retry hint_line retry_line.
  pose proof (handle_error_failure fields w Hs) as H.
  unfold error_report in H. fold hint retry in H.
  change (handle_error (JObj fields) w
          = (Exit 1, complained w (error_line
                                    :: (if truthy hint then [hint_line] else [])
                                    ++ (if truthy retry then [retry_line] else [])))) in H.
  split; [exact H |].
  assert (Hhint : lookup "hint" fields = Some (JStr "") -> truthy hint = false).
  { intros Hh. unfold hint, field. rewrite Hh. reflexivity. }
  assert (Hretry : lookup "retry_after_minutes" fields = Some (JInt 0)
                   \/ lookup "retry_after_minutes" fields = Some JNull ->
                   truthy retry = false).
  { intros [Hr | Hr]; unfold retry, field; rewrite Hr; reflexivity. }
  split; [| split].
  - intros Hh. rewrite H, (Hhint Hh). reflexivity.
  - intros Hr. rewrite H, (Hretry Hr), app_nil_r. reflexivity.
  - intros Hh Hr. rewrite H, (Hhint Hh), (Hretry Hr). reflexivity.
Qed.

Lemma handle_error_omits_falsy_lines_witness :
  handle_error (JObj [("success", JBool false); ("error", JStr "E"); ("hint", JStr "");
                      ("retry_after_minutes", JInt 0)]) start
  = (Exit 1, complained start ["Error: E"]).
Proof.
  apply (handle_error_omits_falsy_lines
           [("success", JBool false); ("error", JStr "E"); ("hint", JStr "");
            ("retry_after_minutes", JInt 0)] start).
  - reflexivity.
  - reflexivity.
  - left. reflexivity.
Defined.

(** *** The transport *)

Lemma api_request_sends (E : env) (method endpoint key : string)
    (json_data : option json) (params : option (list (string * json)))
    (w : world) :
  credentials E = Some key ->
  api_request E method endpoint json_data params w
  = match network E (request_of key method endpoint json_data params) with
    | Response status_code body =>
        let w' := requested w (request_of key method endpoint json_data params) in
        if fatal_status status_code
        then (Exit 1, complained w' [status_message status_code])
        else match body with
             | Some data => (Return data, w')
             | None => (Exit 1, complained w' ["Error: Invalid response from server"])
             end
    | ConnectionError =>
        (Exit 1, complained (requested w (request_of key method endpoint json_data params))
                            ["Error: Could not connect to moltbook.com"])
    | Timeout =>
        (Exit 1, complained (requested w (request_of key method endpoint json_data params))
                            ["Error: Request timed out"])
    | OtherFailure =>
        (Raise RequestException,
         requested w (request_of key method endpoint json_data params))
    end.
Proof.
  intros Hcred. unfold api_request, get_api_key, bind, requests_request, request_of.
  rewrite Hcred. cbn [ret].
  assert (Hstatus : forall status_code,
            fatal_status status_code = false ->
            (status_code =? 404) = false /\ (status_code =? 401) = false
            /\ (status_code =? 403) = false).
  { unfold fatal_status. intros c Hc.
    destruct (c =? 404), (c =? 401), (c =? 403); try discriminate; auto. }
  destruct json_data as [d | ]; [destruct (truthy d) |];
    cbn [app];
    match goal with
    | |- context [network E ?r] =>
        destruct (network E r) as [ | | | status_code body]; try reflexivity
    end;
    cbn zeta;
    (destruct (fatal_status status_code) eqn:Hf;
     [ unfold fatal_status in Hf; unfold status_message;
       destruct (status_code =? 404); [reflexivity |];
       destruct (status_code =? 401); [reflexivity |];
       destruct (status_code =? 403); [reflexivity | discriminate]
     | destruct (Hstatus _ Hf) as (-> & -> & ->); destruct body; reflexivity ]).
Qed.

Lemma api_request_fatal (E : env) (method endpoint key : string)
    (json_data : option json) (params : option (list (string * json)))
    (w : world) (status_code : Z) :
  credentials E = Some key ->
  (forall r, exists body, network E r = Response status_code body) ->
  fatal_status status_code = true ->
  api_request E method endpoint json_data params w
  = (Exit 1, complained (requested w (request_of key method endpoint json_data params))
                        [status_message status_code]).
Proof.
  intros Hcred Hnet Hfatal.
  rewrite (api_request_sends E method endpoint key json_data params w Hcred).
  destruct (Hnet (request_of key method endpoint json_data params)) as [body ->].
  cbn zeta. rewrite Hfatal. reflexivity.
Qed.

(** C8. A response with status 404, 401 or 403 is fatal for every
    command: one fixed line goes to standard error (for 401 the message
    "Authentication failed - check your API key" after the "Error: "
    label every message of the script carries), the process exits with
    code 1 and the body is not handed to the caller; with any other
    status the decoded body is returned as it is. *)
Theorem fatal_statuses_exit_other_statuses_return (E : env) (key : string) :
  credentials E = Some key ->
  (forall method endpoint json_data params w status_code body,
     network E (request_of key method endpoint json_data params)
       = Response status_code body ->
     status_code = 404 \/ status_code = 401 \/ status_code = 403 ->
     api_request E method endpoint json_data params w
     = (Exit 1, complained (requested w (request_of key method endpoint json_data params))
                           [status_message status_code])) /\
  status_message 404 = "Error: Not found" /\
  status_message 401 = "Error: " ++ "Authentication failed - check your API key" /\
  status_message 403 = "Error: Permission denied" /\
  (forall method endpoint json_data params w status_code data,
     network E (request_of key method endpoint json_data params)
       = Response status_code (Some data) ->
     status_code <> 404 -> status_code <> 401 -> status_code <> 403 ->
     api_request E method endpoint json_data params w
     = (Return data, requested w (request_of key method endpoint json_data params))) /\
  (forall c kw w status_code,
     In c (commands E) ->
     (forall r, exists body, network E r = Response status_code body) ->
     status_code = 404 \/ status_code = 401 \/ status_code = 403 ->
     exists r,
       cmd_callback c kw w
       = (Exit 1, complained (requested w r) [status_message status_code])).
Proof.
  intros Hcred.
  split; [| split; [| split; [| split; [| split]]]]; try reflexivity.
  - intros method endpoint json_data params w status_code body Hnet Hstatus.
    rewrite (api_request_sends E method endpoint key json_data params w Hcred), Hnet.
    cbn zeta.
    assert (fatal_status status_code = true) as ->
      by (destruct Hstatus as [-> | [-> | ->]]; reflexivity).
    reflexivity.
  - intros method endpoint json_data params w status_code data Hnet H404 H401 H403.
    rewrite (api_request_sends E method endpoint key json_data params w Hcred), Hnet.
    cbn zeta. unfold fatal_status.
    destruct (Z.eqb_spec status_code 404); [contradiction |].
    destruct (Z.eqb_spec status_code 401); [contradiction |].
    destruct (Z.eqb_spec status_code 403); [contradiction |].
    reflexivity.
  - intros c kw w status_code Hin Hnet Hstatus.
    assert (Hfatal : fatal_status status_code = true)
      by (destruct Hstatus as [-> | [-> | ->]]; reflexivity).
    simpl in Hin.
    destruct Hin as [<- | [<- | [<- | [<- | [<- | [<- | []]]]]]];
      eexists; cbn [cmd_callback feed_command post_command create_command
                    delete_command comment_command user_command];
      unfold feed, post, create, delete, comment, user, bind;
      rewrite (api_request_fatal E _ _ key _ _ w status_code Hcred Hnet Hfatal);
      reflexivity.
Qed.

Lemma fatal_statuses_exit_other_statuses_return_witness :
  api_request (sample_env 401 JNull) "GET" "/posts" None None start
  = (Exit 1, complained (requested start (request_of "test_api_key" "GET" "/posts" None None))
                        ["Error: Authentication failed - check your API key"]) /\
  api_request (sample_env 200 (JObj [("posts", JList [])])) "GET" "/posts" None None start
  = (Return (JObj [("posts", JList [])]),
     requested start (request_of "test_api_key" "GET" "/posts" None None)).
Proof.
  split.
  - destruct (fatal_statuses_exit_other_statuses_return
                (sample_env 401 JNull) "test_api_key" eq_refl) as (Hfatal & _).
    exact (Hfatal "GET" "/posts" None None start 401 (Some JNull) eq_refl
                  (or_intror (or_introl eq_refl))).
  - destruct (fatal_statuses_exit_other_statuses_return
                (sample_env 200 (JObj [("posts", JList [])])) "test_api_key" eq_refl)
      as (_ & _ & _ & _ & Hok & _).
    apply (Hok "GET" "/posts" None None start 200); [reflexivity | | | ]; discriminate.
Defined.

(** *** The commands of the group *)

Lemma registered_commands (E : env) :
  map cmd_name (commands E) = ["feed"; "post"; "create"; "delete"; "comment"; "user"].
Proof. reflexivity. Qed.

Lemma unknown_command (E : env) (name : string) (words : list string) :
  Click.is_option_word name = false ->
  name <> "--" ->
  get_command name (commands E) = None ->
  cli E (name :: words) = (UsageError (Click.NoSuchCommand name), start).
Proof.
  intros Hopt Hdash Hcmd. unfold cli, Click.parse_group. cbn [Click.scan].
  destruct (String.eqb_spec name "--"); [contradiction |].
  rewrite Hopt.
  cbn [Click.help_seen Click.positionals Click.nothing_scanned app].
  rewrite Hcmd. reflexivity.
Qed.

(** C1. The group has no command named upvote, downvote, upvote-comment,
    downvote-comment or submolts: whatever follows the name, the
    invocation is refused as a usage error (exit status 2) and no
    request is sent. *)
Theorem vote_and_submolts_commands_are_missing (E : env) (words : list string) :
  cli E ("upvote" :: words) = (UsageError (Click.NoSuchCommand "upvote"), start) /\
  cli E ("downvote" :: words) = (UsageError (Click.NoSuchCommand "downvote"), start) /\
  cli E ("upvote-comment" :: words)
    = (UsageError (Click.NoSuchCommand "upvote-comment"), start) /\
  cli E ("downvote-comment" :: words)
    = (UsageError (Click.NoSuchCommand "downvote-comment"), start) /\
  cli E ("submolts" :: words) = (UsageError (Click.NoSuchCommand "submolts"), start) /\
  exit_code (fst (cli E ["upvote"; "abc123"])) = 2 /\
  sent (snd (cli E ["upvote"; "abc123"])) = [].
Proof.
  repeat split; try (apply unknown_command; [reflexivity | discriminate | reflexivity]).
Qed.

(** The part of the interface of [feed] that is there: without options
    the request carries sort "hot" and limit 20 and nothing else; a sort
    outside hot, new and top is refused. *)
Lemma feed_defaults (E : env) :
  Click.parse_command (cmd_params (feed_command E)) []
  = Click.Parsed [("sort", Click.VStr "hot"); ("limit", Click.VInt 20);
                  ("output_json", Click.VBool false)] /\
  Click.parse_command (cmd_params (feed_command E)) ["--sort"; "new"; "--limit"; "5"]
  = Click.Parsed [("sort", Click.VStr "new"); ("limit", Click.VInt 5);
                  ("output_json", Click.VBool false)] /\
  Click.parse_command (cmd_params (feed_command E)) ["--sort"; "best"]
  = Click.Usage Click.BadParameter.
Proof. repeat split. Qed.

(** C3. The feed command declares [--sort] and [--limit] and nothing to
    filter by submolt: [feed --submolt programming] is refused as a
    usage error (exit status 2) before any request is sent. *)
Theorem feed_rejects_submolt_filter (E : env) :
  cli E ["feed"; "--submolt"; "programming"]
    = (UsageError (Click.NoSuchOption "--submolt"), start) /\
  exit_code (fst (cli E ["feed"; "--submolt"; "programming"])) = 2 /\
  sent (snd (cli E ["feed"; "--submolt"; "programming"])) = [] /\
  Click.find_option "--submolt" (cmd_params (feed_command E)) = None.
Proof. repeat split. Qed.

(** *** Raw JSON output *)

Lemma echo_printed (message : string) (w : world) :
  echo message w = (Return tt, printed w [message]).
Proof. reflexivity. Qed.

(** The claim that every command has a raw-JSON mode fails for
    [create]: the flag is not declared, the invocation is refused and
    the response is not printed. *)
Lemma create_has_no_raw_json_mode :
  cli (sample_env 200 (JObj [("success", JBool true)]))
      ["create"; "--title"; "t"; "--content"; "c"; "--json"]
    = (UsageError (Click.NoSuchOption "--json"), start) /\
  stdout (snd (cli (sample_env 200 (JObj [("success", JBool true)]))
                   ["create"; "--title"; "t"; "--content"; "c"; "--json"]))
    <> [json_dumps (JObj [("success", JBool true)])].
Proof. split; [reflexivity | discriminate]. Qed.

(** C2, amended. The commands that read (feed, post, user) declare the
    flag [--json]; with the flag set the command prints the decoded
    response, pretty-printed, and nothing else.  The commands that write
    (create, delete, comment) declare no such flag: given to them,
    [--json] is a usage error. *)
Theorem raw_json_mode_of_read_commands (E : env) :
  (forall sort limit data w w',
     api_request E "GET" "/posts" None
       (Some [("sort", JStr sort); ("limit", JInt limit)]) w = (Return data, w') ->
     feed E sort limit true w = (Return tt, printed w' [json_dumps data])) /\
  (forall post_id data w w',
     api_request E "GET" ("/posts/" ++ post_id) None None w = (Return data, w') ->
     post E post_id true w = (Return tt, printed w' [json_dumps data])) /\
  (forall username data w w',
     api_request E "GET" ("/users/" ++ username) None None w = (Return data, w') ->
     user E username true w = (Return tt, printed w' [json_dumps data])) /\
  (forall c, In c [feed_command E; post_command E; user_command E] ->
     Click.find_option "--json" (cmd_params c) = Some (Click.Flag "--json" "output_json")) /\
  (forall c, In c [create_command E; delete_command E; comment_command E] ->
     Click.find_option "--json" (cmd_params c) = None) /\
  (forall argv,
     In argv [["create"; "--title"; "t"; "--content"; "c"; "--json"];
              ["delete"; "abc123"; "--json"];
              ["comment"; "abc123"; "--content"; "c"; "--json"]] ->
     cli E argv = (UsageError (Click.NoSuchOption "--json"), start)) /\
  (forall key data,
     credentials E = Some key ->
     (forall r, network E r = Response 200 (Some data)) ->
     forall argv,
       In argv [["feed"; "--json"]; ["post"; "abc123"; "--json"];
                ["user"; "testuser"; "--json"]] ->
       fst (cli E argv) = Exited 0 /\
       stdout (snd (cli E argv)) = [json_dumps data] /\
       stderr (snd (cli E argv)) = []).
Proof.
  split; [| split; [| split; [| split; [| split; [| split]]]]].
  - intros sort limit data w w' Hreq. unfold feed, bind. rewrite Hreq. reflexivity.
  - intros post_id data w w' Hreq. unfold post, bind. rewrite Hreq. reflexivity.
  - intros username data w w' Hreq. unfold user, bind. rewrite Hreq. reflexivity.
  - intros c [<- | [<- | [<- | []]]]; reflexivity.
  - intros c [<- | [<- | [<- | []]]]; reflexivity.
  - intros argv [<- | [<- | [<- | []]]]; reflexivity.
  - intros key data Hcred Hnet argv Hin.
    simpl in Hin.
    destruct Hin as [<- | [<- | [<- | []]]];
      cbv [cli Click.parse_group]; simpl;
      unfold feed, post, user, bind;
      rewrite (api_request_sends E _ _ key _ _ start Hcred), Hnet;
      repeat split; reflexivity.
Qed.

Lemma raw_json_mode_of_read_commands_witness :
  feed (sample_env 200 (JObj [("posts", JList [])])) "hot" 20 true start
  = (Return tt,
     printed (requested start
                (request_of "test_api_key" "GET" "/posts" None
                   (Some [("sort", JStr "hot"); ("limit", JInt 20)])))
             [json_dumps (JObj [("posts", JList [])])]) /\
  stdout (snd (cli (sample_env 200 (JObj [("posts", JList [])])) ["feed"; "--json"]))
  = [json_dumps (JObj [("posts", JList [])])].
Proof.
  destruct (raw_json_mode_of_read_commands (sample_env 200 (JObj [("posts", JList [])])))
    as (Hfeed & _ & _ & _ & _ & _ & Hcli).
  split.
  - apply Hfeed. reflexivity.
  - apply (Hcli "test_api_key" (JObj [("posts", JList [])]) eq_refl (fun _ => eq_refl)
                ["feed"; "--json"]).
    left. reflexivity.
Defined.

(** *** Rendering of posts and comments *)

Lemma bind_return {A B} (m : M A) (k : A -> M B) (w w' : world) (a : A) :
  m w = (Return a, w') -> bind m k w = k a w'.
Proof. intros H. unfold bind. rewrite H. reflexivity. Qed.

Lemma get_field (fields : list (string * json)) (key : string) (default : json) (w : world) :
  get (JObj fields) key default w = (Return (field key default fields), w).
Proof. reflexivity. Qed.

Lemma get_optional (v : json) (key : string) (default : json) (w : world) :
  optional_dict v = true ->
  get (py_or v (JObj [])) key default w
  = (Return (field key default (fields_of (py_or v (JObj [])))), w).
Proof.
  intros Hv. unfold py_or.
  destruct v as [ | b | z | s | items | fields]; simpl in Hv |- *;
    try (apply negb_true_iff in Hv; rewrite Hv); try reflexivity.
  destruct fields; reflexivity.
Qed.

Lemma py_sub_score (fields : list (string * json)) (votes : Z) (w : world) :
  score fields = Some votes ->
  py_sub (field "upvotes" (JInt 0) fields) (field "downvotes" (JInt 0) fields) w
  = (Return votes, w).
Proof.
  unfold score, py_sub.
  destruct (as_int (field "upvotes" (JInt 0) fields));
    destruct (as_int (field "downvotes" (JInt 0) fields)); try discriminate.
  intros [= <-]. reflexivity.
Qed.

Lemma format_time_returns (E : env) (v : json) :
  optional_text v = true -> format_time E v = Return (time_text E v).
Proof.
  intros Hv. unfold time_text.
  destruct v as [ | b | z | s | items | fields]; unfold optional_text in Hv;
    try (unfold format_time; rewrite Hv; reflexivity).
  - unfold format_time.
    destruct (negb (truthy (JStr s))); [reflexivity |].
    destruct (fromisoformat E _); [| reflexivity].
    destruct (_ >? 0); [reflexivity |].
    destruct (_ >? 0); [reflexivity |].
    destruct (_ >? 0); reflexivity.
Qed.

Lemma lift_returns {A} (o : outcome A) (a : A) (w : world) :
  o = Return a -> lift o w = (Return a, w).
Proof. intros ->. reflexivity. Qed.

Lemma printed_app (w : world) (l1 l2 : list string) :
  printed (printed w l1) l2 = printed w (l1 ++ l2).
Proof. unfold printed. simpl. rewrite <- app_assoc. reflexivity. Qed.

Lemma printed_nil (w : world) : printed w [] = w.
Proof. destruct w. unfold printed. simpl. rewrite app_nil_r. reflexivity. Qed.

(** The steps of a computation whose results are known. *)
Ltac step :=
  first
    [ rewrite (bind_return _ _ _ _ _ (get_field _ _ _ _))
    | erewrite bind_return by (apply get_optional; assumption)
    | erewrite bind_return by (apply py_sub_score; eassumption)
    | erewrite bind_return by (apply lift_returns, format_time_returns; assumption)
    | rewrite (bind_return _ _ _ _ _ (echo_printed _ _)) ];
  cbv zeta.

Lemma comment_lines_renderable (E : env) (prefix : string)
    (fields : list (string * json)) (w : world) :
  renderable_entry fields = true ->
  comment_lines E prefix (JObj fields) w
  = (Return tt,
     printed w [prefix ++ py_str (nested_name "author" "name" "anonymous" fields)
                  ++ " (" ++ score_text fields ++ ") "
                  ++ time_text E (field "created_at" JNull fields);
                prefix ++ "  " ++ py_str (field "content" (JStr "") fields)]).
Proof.
  unfold renderable_entry. intros H.
  apply andb_true_iff in H as [H Htime]. apply andb_true_iff in H as [Hauthor Hscore].
  unfold score_text.
  destruct (score fields) as [votes | ] eqn:Hvotes; [| discriminate].
  unfold comment_lines.
  repeat step.
  rewrite echo_printed, printed_app. reflexivity.
Qed.

Lemma feed_entry_renderable (E : env) (fields : list (string * json)) (w : world) :
  renderable_post fields = true ->
  feed_entry E (JObj fields) w = (Return tt, printed w (feed_lines E fields)).
Proof.
  unfold renderable_post. intros H.
  apply andb_true_iff in H as [H Htime]. apply andb_true_iff in H as [H Hscore].
  apply andb_true_iff in H as [Hauthor Hsubmolt].
  unfold feed_lines, score_text.
  destruct (score fields) as [votes | ] eqn:Hvotes; [| discriminate].
  unfold feed_entry.
  repeat step.
  rewrite echo_printed, !printed_app. reflexivity.
Qed.

Lemma bind_ext {A B} (m : M A) (k1 k2 : A -> M B) (w : world) :
  (forall a w', k1 a w' = k2 a w') -> bind m k1 w = bind m k2 w.
Proof.
  intros H. unfold bind. destruct (m w) as [[a | code | e] w']; auto.
Qed.

Lemma bind_ext_l {A B} (m1 m2 : M A) (k : A -> M B) (w : world) :
  (forall w', m1 w' = m2 w') -> bind m1 k w = bind m2 k w.
Proof. intros H. unfold bind. rewrite H. reflexivity. Qed.

Lemma print_comments_nil (E : env) (indent : nat) (w : world) :
  print_comments E (JList []) indent w = (Return tt, w).
Proof. reflexivity. Qed.

(** The body of the loop of [print_comments] as the source has it. *)
Lemma print_comments_cons (E : env) (c : json) (rest : list json) (indent : nat) (w : world) :
  print_comments E (JList (c :: rest)) indent w
  = ((comment_lines E (repeat_string "  " indent) c ;;
      replies <- get c "replies" (JList []) ;;
      if truthy replies then print_comments E replies (S indent) else ret tt) ;;
     print_comments E (JList rest) indent) w.
Proof.
  cbn [print_comments].
  apply bind_ext_l. clear w. intros w.
  destruct c as [ | b | z | s | items | fields]; try reflexivity.
  apply bind_ext. clear w. intros _ w.
  rewrite (bind_return _ _ _ _ _ (get_field _ _ _ _)).
  unfold field.
  induction fields as [ | [k v] more IH]; [reflexivity |].
  cbn [lookup]. destruct (String.eqb k "replies"); [reflexivity | exact IH].
Qed.

Lemma all_read_as_nil_r (E : env) (comments : list comment_tree) :
  all_read_as E comments [] = true -> comments = [].
Proof. destruct comments; [reflexivity | discriminate]. Qed.

Lemma reads_as_inv (E : env) (v : json) (author_name : string) (votes : Z)
    (relative content : string) (replies : list comment_tree) :
  reads_as E v (Comment author_name votes relative content replies) = true ->
  exists fields,
    v = JObj fields /\
    renderable_entry fields = true /\
    author_name = py_str (nested_name "author" "name" "anonymous" fields) /\
    score fields = Some votes /\
    relative = time_text E (field "created_at" JNull fields) /\
    content = py_str (field "content" (JStr "") fields) /\
    ((exists items, field "replies" (JList []) fields = JList items
                    /\ all_read_as E replies items = true)
     \/ (truthy (field "replies" (JList []) fields) = false /\ replies = [])).
Proof.
  destruct v as [ | b | z | s | items | fields]; try discriminate.
  cbn [reads_as]. intros H. exists fields.
  apply andb_true_iff in H as [H Hreplies].
  apply andb_true_iff in H as [H Hcontent].
  apply andb_true_iff in H as [H Htime].
  apply andb_true_iff in H as [H Hvotes].
  apply andb_true_iff in H as [Hfields Hname].
  split; [reflexivity |]. split; [assumption |].
  split; [apply String.eqb_eq; assumption |].
  split.
  { destruct (score fields) as [z | ]; [| discriminate].
    f_equal. symmetry. apply Z.eqb_eq. assumption. }
  split; [apply String.eqb_eq; assumption |].
  split; [apply String.eqb_eq; assumption |].
  destruct (field "replies" (JList []) fields) as [ | b | z | s | items | fs] eqn:Hr;
    try (right; apply andb_true_iff in Hreplies as [Hx1 Hx2];
         apply negb_true_iff in Hx1; split; [exact Hx1 |];
         destruct replies; [reflexivity | discriminate]).
  left. exists items. split; [reflexivity |].
  revert Hreplies. clear. revert items.
  induction replies as [ | r replies IH]; intros [ | v items]; try (intros; assumption).
  intros Hx. cbn [all_read_as]. apply andb_true_iff in Hx as [Hx1 Hx2].
  rewrite Hx1. cbn [andb]. apply IH. exact Hx2.
Qed.

(** A list of comments is rendered reply by reply as soon as each of
    its comments is. *)
Lemma print_comments_each (E : env) (comments : list comment_tree) :
  Forall (fun c => forall v indent w,
            reads_as E v c = true ->
            (comment_lines E (repeat_string "  " indent) v ;;
             replies <- get v "replies" (JList []) ;;
             if truthy replies then print_comments E replies (S indent) else ret tt) w
            = (Return tt, printed w (render indent c))) comments ->
  forall items indent w,
    all_read_as E comments items = true ->
    print_comments E (JList items) indent w
    = (Return tt, printed w (render_comments comments indent)).
Proof.
  induction 1 as [ | c comments Hc _ IH]; intros [ | v items] indent w Hall;
    try discriminate.
  - rewrite printed_nil. reflexivity.
  - cbn [all_read_as] in Hall. apply andb_true_iff in Hall as [Hv Hitems].
    rewrite print_comments_cons.
    rewrite (bind_return _ _ _ _ _ (Hc v indent w Hv)).
    rewrite (IH items indent _ Hitems), printed_app. reflexivity.
Qed.

Lemma print_comment_tree (E : env) (c : comment_tree) :
  forall v indent w,
    reads_as E v c = true ->
    (comment_lines E (repeat_string "  " indent) v ;;
     replies <- get v "replies" (JList []) ;;
     if truthy replies then print_comments E replies (S indent) else ret tt) w
    = (Return tt, printed w (render indent c)).
Proof.
  induction c as [author_name votes relative content replies IH]
    using comment_tree_induction.
  intros v indent w Hv.
  apply reads_as_inv in Hv
    as (fields & -> & Hfields & -> & Hscore & -> & -> & Hreplies).
  rewrite (bind_return _ _ _ _ _ (comment_lines_renderable E _ fields w Hfields)).
  rewrite (bind_return _ _ _ _ _ (get_field _ _ _ _)).
  unfold score_text. rewrite Hscore. cbn [render].
  destruct Hreplies as [(items & -> & Hitems) | [Hfalsy ->]].
  - destruct items as [ | v items].
    + apply all_read_as_nil_r in Hitems. subst replies. reflexivity.
    + cbn [truthy].
      rewrite (print_comments_each E replies IH (v :: items) (S indent) _ Hitems).
      rewrite printed_app. reflexivity.
  - rewrite Hfalsy. reflexivity.
Qed.

Lemma print_comments_tree (E : env) (comments : list comment_tree) (items : list json)
    (indent : nat) (w : world) :
  all_read_as E comments items = true ->
  print_comments E (JList items) indent w
  = (Return tt, printed w (render_comments comments indent)).
Proof.
  apply print_comments_each.
  apply Forall_forall. intros c _. apply print_comment_tree.
Qed.

(** C5. [print_comments] goes through the comments in the order given:
    for each one it prints the header line (indent, author, signed
    score, relative time) and then the content line, and when the
    replies are not empty it renders them one level deeper before the
    next sibling.  For comments the renderer accepts the output is that
    of the depth-first renderer of the specification, and the sample
    tree gives "a" at indent 0 before "b" at indent 1. *)
Theorem print_comments_preorder (E : env) (indent : nat) (w : world) :
  print_comments E (JList []) indent w = (Return tt, w) /\
  (forall c rest,
     print_comments E (JList (c :: rest)) indent w
     = ((comment_lines E (repeat_string "  " indent) c ;;
         replies <- get c "replies" (JList []) ;;
         if truthy replies then print_comments E replies (S indent) else ret tt) ;;
        print_comments E (JList rest) indent) w) /\
  (forall fields,
     renderable_entry fields = true ->
     comment_lines E (repeat_string "  " indent) (JObj fields) w
     = (Return tt,
        printed w [repeat_string "  " indent
                     ++ py_str (nested_name "author" "name" "anonymous" fields)
                     ++ " (" ++ score_text fields ++ ") "
                     ++ time_text E (field "created_at" JNull fields);
                   repeat_string "  " indent ++ "  "
                     ++ py_str (field "content" (JStr "") fields)])) /\
  (forall comments items,
     all_read_as E comments items = true ->
     print_comments E (JList items) indent w
     = (Return tt, printed w (render_comments comments indent))) /\
  print_comments E sample_comments 0 w
  = (Return tt, printed w ["anonymous (+0) unknown"; "  a";
                           "  anonymous (+0) unknown"; "    b"]).
Proof.
  split; [reflexivity |].
  split; [intros c rest; apply print_comments_cons |].
  split; [intros fields; apply comment_lines_renderable |].
  split; [intros comments items; apply print_comments_tree |].
  apply (print_comments_tree E sample_tree). reflexivity.
Qed.

Lemma print_comments_preorder_witness :
  print_comments (sample_env 200 JNull) sample_comments 0 start
  = (Return tt, printed start (render_comments sample_tree 0)).
Proof.
  destruct (print_comments_preorder (sample_env 200 JNull) 0 start)
    as (_ & _ & _ & Htree & _).
  apply Htree. reflexivity.
Defined.

(** *** Defaults of missing fields *)

Lemma nested_name_default (outer inner default : string) (fields : list (string * json)) :
  lacks_name outer inner fields ->
  nested_name outer inner default fields = JStr default.
Proof.
  unfold lacks_name, nested_name, field.
  intros [-> | [-> | (a & -> & Ha)]]; try reflexivity.
  destruct a as [ | kv a]; [reflexivity |].
  unfold py_or. cbn [truthy fields_of]. rewrite Ha. reflexivity.
Qed.

Lemma nested_name_present (outer inner default : string) (fields a : list (string * json))
    (name : json) :
  lookup outer fields = Some (JObj a) ->
  lookup inner a = Some name ->
  nested_name outer inner default fields = name.
Proof.
  unfold nested_name, field. intros -> Ha.
  destruct a as [ | kv a]; [discriminate |].
  unfold py_or. cbn [truthy fields_of]. rewrite Ha. reflexivity.
Qed.

Lemma for_each_feed_entry (E : env) (items : list json) (w : world) :
  renderable_posts items = true ->
  for_each items (feed_entry E) w = (Return tt, printed w (feed_page E items)).
Proof.
  revert w. induction items as [ | p items IH]; intros w Hitems.
  - rewrite printed_nil. reflexivity.
  - cbn [renderable_posts forallb] in Hitems.
    apply andb_true_iff in Hitems as [Hp Hitems].
    destruct p as [ | b | z | s | l | fields]; try discriminate.
    cbn [for_each].
    rewrite (bind_return _ _ _ _ _ (feed_entry_renderable E fields w Hp)).
    rewrite (IH _ Hitems), printed_app. reflexivity.
Qed.

Lemma feed_renders (E : env) (sort : string) (limit : Z)
    (dfields : list (string * json)) (items : list json) (w w' : world) :
  api_request E "GET" "/posts" None
    (Some [("sort", JStr sort); ("limit", JInt limit)]) w = (Return (JObj dfields), w') ->
  field "posts" (JList []) dfields = JList items ->
  renderable_posts items = true ->
  feed E sort limit false w
  = (Return tt, printed w' (match items with
                            | [] => ["No posts found"]
                            | _ => feed_page E items
                            end)).
Proof.
  intros Hreq Hposts Hitems. unfold feed.
  rewrite (bind_return _ _ _ _ _ Hreq).
  rewrite (bind_return _ _ _ _ _ (get_field _ _ _ _)), Hposts.
  destruct items as [ | p items]; [reflexivity |].
  cbn [truthy negb py_iter].
  rewrite (bind_return _ _ w' w' (p :: items)) by reflexivity.
  apply for_each_feed_entry. exact Hitems.
Qed.

Lemma echo_value_printed (v : json) (w : world) :
  echo_value v w = (Return tt, printed w [echoed v]).
Proof. destruct v; reflexivity. Qed.

Lemma post_renders (E : env) (post_id : string)
    (dfields pfields : list (string * json)) (w w' : world) :
  api_request E "GET" ("/posts/" ++ post_id) None None w = (Return (JObj dfields), w') ->
  field "post" (JObj []) dfields = JObj pfields ->
  pfields <> [] ->
  renderable_entry pfields = true ->
  (truthy (field "comments" (JList []) dfields) = false ->
   post E post_id false w
   = (Return tt, printed w' (post_lines E pfields ++ [nl ++ "No comments yet"]))) /\
  (forall items comments,
     field "comments" (JList []) dfields = JList items ->
     items <> [] ->
     all_read_as E comments items = true ->
     post E post_id false w
     = (Return tt,
        printed w' (post_lines E pfields
                    ++ (nl ++ "Comments (" ++ str_int (Z.of_nat (List.length items)) ++ "):")
                    :: render_comments comments 0))).
Proof.
  intros Hreq Hpost Hne Hfields.
  assert (Hhead :
            post E post_id false w
            = ((comments <- get (JObj dfields) "comments" (JList []) ;;
                if truthy comments then
                  n <- py_len comments ;;
                  echo (nl ++ "Comments (" ++ str_int n ++ "):") ;;
                  print_comments E comments 0
                else echo (nl ++ "No comments yet"))
                 (printed w' (post_lines E pfields)))).
  { unfold post.
    rewrite (bind_return _ _ _ _ _ Hreq).
    rewrite (bind_return _ _ _ _ _ (get_field _ _ _ _)), Hpost.
    destruct pfields as [ | kv pfields]; [contradiction |].
    cbn [truthy negb].
    unfold renderable_entry in Hfields.
    apply andb_true_iff in Hfields as [H Htime].
    apply andb_true_iff in H as [Hauthor Hscore].
    unfold post_lines, score_text.
    destruct (score (kv :: pfields)) as [votes | ] eqn:Hvotes; [| discriminate].
    repeat step.
    rewrite (bind_return _ _ _ _ _ (echo_value_printed _ _)).
    repeat step.
    rewrite !printed_app. reflexivity. }
  rewrite Hhead.
  rewrite (bind_return _ _ _ _ _ (get_field _ _ _ _)).
  split.
  - intros ->. rewrite echo_printed, printed_app. reflexivity.
  - intros items comments -> Hitems Hall.
    destruct items as [ | v items]; [contradiction |].
    cbn [truthy py_len].
    rewrite (bind_return _ _ _ _ (Z.of_nat (List.length (v :: items)))) by reflexivity.
    step.
    rewrite (print_comments_tree E comments (v :: items) 0 _ Hall).
    rewrite !printed_app. reflexivity.
Qed.

(** C7. A post whose author is absent, null or without a username is
    shown as by "anonymous", in the feed and on its page; a post whose
    submolt is absent or null is shown in "general"; the author of a
    comment is looked up under the key [name], with "anonymous" when
    that key is missing, whatever [username] holds. *)
Theorem missing_names_render_as_defaults (E : env) (fields : list (string * json))
    (w : world) :
  (renderable_post fields = true ->
   feed_entry E (JObj fields) w = (Return tt, printed w (feed_lines E fields))) /\
  (lacks_name "author" "username" fields ->
   nth 2 (feed_lines E fields) ""
   = "  by anonymous in " ++ py_str (nested_name "submolt" "name" "general" fields)) /\
  (lookup "submolt" fields = None \/ lookup "submolt" fields = Some JNull ->
   nth 2 (feed_lines E fields) ""
   = "  by " ++ py_str (nested_name "author" "username" "anonymous" fields)
     ++ " in general") /\
  (forall post_id dfields w',
     api_request E "GET" ("/posts/" ++ post_id) None None w = (Return (JObj dfields), w') ->
     field "post" (JObj []) dfields = JObj fields ->
     fields <> [] ->
     renderable_entry fields = true ->
     truthy (field "comments" (JList []) dfields) = false ->
     post E post_id false w
     = (Return tt, printed w' (post_lines E fields ++ [nl ++ "No comments yet"]))) /\
  (lacks_name "author" "username" fields ->
   nth 1 (post_lines E fields) ""
   = "by anonymous | " ++ score_text fields ++ " points | "
     ++ time_text E (field "created_at" JNull fields)) /\
  (forall prefix,
     renderable_entry fields = true ->
     comment_lines E prefix (JObj fields) w
     = (Return tt,
        printed w [prefix ++ py_str (nested_name "author" "name" "anonymous" fields)
                     ++ " (" ++ score_text fields ++ ") "
                     ++ time_text E (field "created_at" JNull fields);
                   prefix ++ "  " ++ py_str (field "content" (JStr "") fields)])) /\
  (lacks_name "author" "name" fields ->
   nested_name "author" "name" "anonymous" fields = JStr "anonymous") /\
  (forall a name,
     lookup "author" fields = Some (JObj a) ->
     lookup "name" a = Some name ->
     nested_name "author" "name" "anonymous" fields = name) /\
  comment_lines E "" (JObj [("author", JObj [("username", JStr "testuser")]);
                            ("content", JStr "x")]) w
  = (Return tt, printed w ["anonymous (+0) unknown"; "  x"]).
Proof.
  split; [apply feed_entry_renderable |].
  split.
  { intros H. unfold feed_lines, nth.
    rewrite (nested_name_default "author" "username" "anonymous" fields H). reflexivity. }
  split.
  { intros H. unfold feed_lines, nth.
    rewrite (nested_name_default "submolt" "name" "general" fields).
    - reflexivity.
    - destruct H as [H | H]; [left | right; left]; exact H. }
  split.
  { intros post_id dfields w' Hreq Hpost Hne Hfields.
    apply (post_renders E post_id dfields fields w w' Hreq Hpost Hne Hfields). }
  split.
  { intros H. unfold post_lines, nth.
    rewrite (nested_name_default "author" "username" "anonymous" fields H). reflexivity. }
  split; [intros prefix; apply comment_lines_renderable |].
  split; [apply nested_name_default |].
  split; [intros a name; apply nested_name_present |].
  rewrite comment_lines_renderable by reflexivity. reflexivity.
Qed.

Lemma missing_names_render_as_defaults_witness :
  feed_entry (sample_env 200 bare_feed) (JObj bare_post) start
  = (Return tt, printed start (feed_lines (sample_env 200 bare_feed) bare_post)) /\
  nth 2 (feed_lines (sample_env 200 bare_feed) bare_post) "" = "  by anonymous in general" /\
  post (sample_env 200 bare_page) "abc123" false start
  = (Return tt,
     printed (requested start (request_of "test_api_key" "GET" "/posts/abc123" None None))
             (post_lines (sample_env 200 bare_page) bare_post ++ [nl ++ "No comments yet"])).
Proof.
  split; [| split].
  - destruct (missing_names_render_as_defaults (sample_env 200 bare_feed) bare_post start)
      as (Hfeed & _).
    apply Hfeed. reflexivity.
  - destruct (missing_names_render_as_defaults (sample_env 200 bare_feed) bare_post start)
      as (_ & Hauthor & _).
    rewrite Hauthor; [reflexivity | left; reflexivity].
  - destruct (missing_names_render_as_defaults (sample_env 200 bare_page) bare_post start)
      as (_ & _ & _ & Hpost & _).
    apply (Hpost "abc123" [("post", JObj bare_post)]);
      [reflexivity | reflexivity | discriminate | reflexivity | reflexivity].
Defined.

(** C10. A post without a title is shown under the title "Untitled", by
    the feed command and by the post command alike: the command goes on
    and the title line is not left empty. *)
Theorem missing_title_renders_untitled (E : env) (fields : list (string * json)) :
  lookup "title" fields = None ->
  feed_lines E fields = (nl ++ "Untitled") :: tl (feed_lines E fields) /\
  post_lines E fields = (nl ++ "Untitled") :: tl (post_lines E fields) /\
  (forall w,
     renderable_post fields = true ->
     feed_entry E (JObj fields) w
     = (Return tt, printed w ((nl ++ "Untitled") :: tl (feed_lines E fields)))) /\
  (forall sort limit dfields before after w w',
     api_request E "GET" "/posts" None
       (Some [("sort", JStr sort); ("limit", JInt limit)]) w = (Return (JObj dfields), w') ->
     field "posts" (JList []) dfields = JList (before ++ JObj fields :: after) ->
     renderable_posts (before ++ JObj fields :: after) = true ->
     feed E sort limit false w
     = (Return tt,
        printed w' (feed_page E before
                    ++ ((nl ++ "Untitled") :: tl (feed_lines E fields))
                    ++ feed_page E after))) /\
  (forall post_id dfields w w',
     api_request E "GET" ("/posts/" ++ post_id) None None w = (Return (JObj dfields), w') ->
     field "post" (JObj []) dfields = JObj fields ->
     fields <> [] ->
     renderable_entry fields = true ->
     (truthy (field "comments" (JList []) dfields) = false ->
      post E post_id false w
      = (Return tt,
         printed w' (((nl ++ "Untitled") :: tl (post_lines E fields))
                     ++ [nl ++ "No comments yet"]))) /\
     (forall items comments,
        field "comments" (JList []) dfields = JList items ->
        items <> [] ->
        all_read_as E comments items = true ->
        post E post_id false w
        = (Return tt,
           printed w' (((nl ++ "Untitled") :: tl (post_lines E fields))
                       ++ (nl ++ "Comments (" ++ str_int (Z.of_nat (List.length items)) ++ "):")
                       :: render_comments comments 0)))).
Proof.
  intros Htitle.
  assert (Hfeed : feed_lines E fields = (nl ++ "Untitled") :: tl (feed_lines E fields)).
  { unfold feed_lines, field at 1. rewrite Htitle. reflexivity. }
  assert (Hpost : post_lines E fields = (nl ++ "Untitled") :: tl (post_lines E fields)).
  { unfold post_lines, field at 1. rewrite Htitle. reflexivity. }
  split; [exact Hfeed |]. split; [exact Hpost |].
  split; [| split].
  - intros w Hfields. rewrite <- Hfeed. apply feed_entry_renderable, Hfields.
  - intros sort limit dfields before after w w' Hreq Hposts Hitems.
    rewrite (feed_renders E sort limit dfields _ w w' Hreq Hposts Hitems).
    rewrite <- Hfeed.
    replace (feed_page E before ++ feed_lines E fields ++ feed_page E after)%list
      with (feed_page E (before ++ JObj fields :: after))
      by (unfold feed_page; rewrite flat_map_app; reflexivity).
    destruct before; reflexivity.
  - intros post_id dfields w w' Hreq Hp Hne Hfields.
    rewrite <- Hpost.
    apply (post_renders E post_id dfields fields w w' Hreq Hp Hne Hfields).
Qed.

Lemma missing_title_renders_untitled_witness :
  feed (sample_env 200 bare_feed) "hot" 20 false start
  = (Return tt,
     printed (requested start
                (request_of "test_api_key" "GET" "/posts" None
                   (Some [("sort", JStr "hot"); ("limit", JInt 20)])))
             [nl ++ "Untitled"; "  +0 points | 0 comments | unknown";
              "  by anonymous in general"; "  id: abc123"]) /\
  post (sample_env 200 bare_page) "abc123" false start
  = (Return tt,
     printed (requested start (request_of "test_api_key" "GET" "/posts/abc123" None None))
             [nl ++ "Untitled"; "by anonymous | +0 points | unknown";
              repeat_string "-" 40; ""; repeat_string "-" 40; nl ++ "No comments yet"]).
Proof.
  split.
  - destruct (missing_title_renders_untitled (sample_env 200 bare_feed) bare_post eq_refl)
      as (_ & _ & _ & Hfeed & _).
    apply (Hfeed "hot" 20 [("posts", JList [JObj bare_post])] [] []);
      reflexivity.
  - destruct (missing_title_renders_untitled (sample_env 200 bare_page) bare_post eq_refl)
      as (_ & _ & _ & _ & Hpost).
    apply (Hpost "abc123" [("post", JObj bare_post)]);
      [reflexivity | reflexivity | discriminate | reflexivity | reflexivity].
Defined.

(* ===================================================================== *)
(** ** Further properties of the script *)
(* ===================================================================== *)

Import Conduct.

(** *** Steps that only print *)

Lemma quiet_ret {A} (a : A) : quiet (ret a).
Proof.
  intros w. split; [exists []; symmetry; apply printed_nil | discriminate].
Qed.

Lemma quiet_raise {A} (e : exn) : quiet (@raise A e).
Proof.
  intros w. split; [exists []; symmetry; apply printed_nil | discriminate].
Qed.

Lemma quiet_echo (message : string) : quiet (echo message).
Proof.
  intros w. split; [exists [message]; reflexivity | discriminate].
Qed.

Lemma quiet_echo_value (v : json) : quiet (echo_value v).
Proof. destruct v; apply quiet_echo. Qed.

Lemma quiet_get (d : json) (key : string) (default : json) : quiet (get d key default).
Proof. destruct d; first [apply quiet_raise | apply quiet_ret]. Qed.

Lemma quiet_py_sub (a b : json) : quiet (py_sub a b).
Proof.
  unfold py_sub. destruct (as_int a), (as_int b);
    first [apply quiet_raise | apply quiet_ret].
Qed.

Lemma quiet_py_iter (v : json) : quiet (py_iter v).
Proof. destruct v; first [apply quiet_raise | apply quiet_ret]. Qed.

Lemma quiet_py_len (v : json) : quiet (py_len v).
Proof. destruct v; first [apply quiet_raise | apply quiet_ret]. Qed.

Lemma format_time_no_exit (E : env) (v : json) (code : Z) :
  format_time E v <> Exit code.
Proof.
  unfold format_time.
  destruct (negb (truthy v)); [discriminate |].
  destruct v; try discriminate.
  destruct (fromisoformat E _); [| discriminate].
  destruct (_ >? 0); [discriminate |].
  destruct (_ >? 0); [discriminate |].
  destruct (_ >? 0); discriminate.
Qed.

Lemma quiet_format_time (E : env) (v : json) : quiet (lift (format_time E v)).
Proof.
  intros w. split; [exists []; symmetry; apply printed_nil |].
  intros code. apply format_time_no_exit.
Qed.

(** A step that only prints, followed by steps that only print. *)
Lemma quiet_bind_returned {A B} (m : M A) (k : A -> M B) :
  quiet m ->
  (forall w a, fst (m w) = Return a -> quiet (k a)) ->
  quiet (bind m k).
Proof.
  intros Hm Hk w. unfold bind.
  destruct (Hm w) as [[out Hout] Hexit].
  specialize (Hk w).
  destruct (m w) as [[a | code | e] w1]; cbn [fst snd] in *.
  - destruct (Hk a eq_refl w1) as [[out' Hout'] Hexit'].
    split; [| exact Hexit'].
    exists (out ++ out')%list. rewrite Hout', Hout. apply printed_app.
  - contradiction (Hexit code). reflexivity.
  - split; [exists out; exact Hout | discriminate].
Qed.

Lemma quiet_bind {A B} (m : M A) (k : A -> M B) :
  quiet m -> (forall a, quiet (k a)) -> quiet (bind m k).
Proof. intros Hm Hk. apply quiet_bind_returned; auto. Qed.

Lemma quiet_ext {A} (m m' : M A) :
  (forall w, m w = m' w) -> quiet m' -> quiet m.
Proof. intros Heq Hm w. rewrite Heq. apply Hm. Qed.

Lemma quiet_for_each {A} (items : list A) (body : A -> M unit) :
  (forall x, In x items -> quiet (body x)) -> quiet (for_each items body).
Proof.
  induction items as [ | x items IH]; intros Hbody.
  - apply quiet_ret.
  - cbn [for_each]. apply quiet_bind.
    + apply Hbody. left. reflexivity.
    + intros _. apply IH. intros y Hy. apply Hbody. right. exact Hy.
Qed.

(** Chains of steps that only print. *)
Ltac quiet_steps :=
  repeat first
    [ apply quiet_ret | apply quiet_raise | apply quiet_echo | apply quiet_echo_value
    | apply quiet_get | apply quiet_py_sub | apply quiet_py_iter | apply quiet_py_len
    | apply quiet_format_time
    | apply quiet_bind; [ | intros ? ]
    | match goal with |- quiet (if ?b then _ else _) => destruct b end ].

Lemma quiet_feed_entry (E : env) (post : json) : quiet (feed_entry E post).
Proof. unfold feed_entry. quiet_steps. Qed.

Lemma quiet_comment_lines (E : env) (prefix : string) (c : json) :
  quiet (comment_lines E prefix c).
Proof. unfold comment_lines. quiet_steps. Qed.

Lemma lookup_In (key : string) (fields : list (string * json)) (v : json) :
  lookup key fields = Some v -> exists k, In (k, v) fields.
Proof.
  induction fields as [ | [k x] fields IH]; [discriminate |].
  cbn [lookup]. destruct (String.eqb k key).
  - intros [= ->]. exists k. left. reflexivity.
  - intros H. destruct (IH H) as [k' Hk']. exists k'. right. exact Hk'.
Qed.

Lemma quiet_print_comments_values (E : env) (v : json) :
  (forall indent, quiet (print_comments E v indent)) /\
  (forall fields key x,
     v = JObj fields -> lookup key fields = Some x ->
     forall indent, quiet (print_comments E x indent)).
Proof.
  induction v as [ | b | z | s | items IH | fields IH] using json_induction;
    try (split; [intros indent; cbn [print_comments]; quiet_steps;
                 apply quiet_for_each; intros; quiet_steps
                | discriminate]).
  - split; [| discriminate].
    induction IH as [ | c items Hc _ IHitems]; intros indent.
    + apply quiet_ret.
    + eapply quiet_ext; [intros w; apply print_comments_cons |].
      apply quiet_bind; [| intros _; apply IHitems].
      apply quiet_bind; [apply quiet_comment_lines | intros _].
      apply quiet_bind_returned; [apply quiet_get |].
      intros w replies Hreplies.
      destruct (truthy replies) eqn:Htruthy; [| apply quiet_ret].
      destruct c as [ | b | z | s | l | fields]; try discriminate.
      cbn in Hreplies. injection Hreplies as Hreplies.
      destruct (lookup "replies" fields) as [x | ] eqn:Hlookup.
      * subst x. apply (proj2 Hc fields "replies" replies eq_refl Hlookup).
      * subst replies. discriminate.
  - split.
    + intros indent. cbn [print_comments]. quiet_steps.
      apply quiet_for_each. intros. quiet_steps.
    + intros fields' key x [= <-] Hlookup.
      destruct (lookup_In key fields x Hlookup) as [k Hin].
      rewrite Forall_forall in IH.
      apply (proj1 (IH (k, x) Hin)).
Qed.

(** [print_comments] only prints, whatever the value it is given. *)
Lemma quiet_print_comments (E : env) (comments : json) (indent : nat) :
  quiet (print_comments E comments indent).
Proof. apply quiet_print_comments_values. Qed.

(** *** Steps that check before anything is shown *)

Lemma world_same (w : world) :
  w = mkWorld (stdout w) (stderr w ++ []) (sent w ++ []).
Proof. destruct w. cbn. rewrite !app_nil_r. reflexivity. Qed.

Lemma requested_same (w : world) (r : request) :
  requested w r = mkWorld (stdout w) (stderr w ++ []) (sent w ++ [r]).
Proof. unfold requested. rewrite app_nil_r. reflexivity. Qed.

Lemma api_request_without_credentials (E : env) (method endpoint : string)
    (json_data : option json) (params : option (list (string * json))) (w : world) :
  credentials E = None ->
  api_request E method endpoint json_data params w
  = (Exit 1, complained w credentials_report).
Proof.
  intros Hcred. unfold api_request, get_api_key, bind. rewrite Hcred.
  rewrite !echo_err_complained. unfold sys_exit. rewrite complained_app. reflexivity.
Qed.

Lemma gate_api_request (E : env) (method endpoint : string)
    (json_data : option json) (params : option (list (string * json))) :
  gate 1 (api_request E method endpoint json_data params).
Proof.
  intros w. destruct (credentials E) as [key | ] eqn:Hcred.
  - rewrite (api_request_sends E method endpoint key json_data params w Hcred).
    set (r := request_of key method endpoint json_data params).
    destruct (network E r) as [ | | | status_code body].
    + exists ["Error: Could not connect to moltbook.com"], [r].
      repeat split; [apply Nat.le_refl | discriminate].
    + exists ["Error: Request timed out"], [r].
      repeat split; [apply Nat.le_refl | discriminate].
    + exists [], [r]. cbn [fst snd]. split; [apply requested_same |].
      split; [apply Nat.le_refl | reflexivity].
    + cbn zeta. destruct (fatal_status status_code).
      * exists [status_message status_code], [r].
        repeat split; [apply Nat.le_refl | discriminate].
      * destruct body as [data | ].
        -- exists [], [r]. cbn [fst snd]. split; [apply requested_same |].
           split; [apply Nat.le_refl | reflexivity].
        -- exists ["Error: Invalid response from server"], [r].
           repeat split; [apply Nat.le_refl | discriminate].
  - rewrite (api_request_without_credentials E _ _ _ _ w Hcred).
    exists credentials_report, []. cbn [fst snd].
    split; [unfold complained; rewrite app_nil_r; reflexivity |].
    split; [apply Nat.le_0_l |]. split; [reflexivity | discriminate].
Qed.

Lemma error_report_not_nil (fields : list (string * json)) : error_report fields <> [].
Proof. unfold error_report. discriminate. Qed.

Lemma gate_handle_error (data : json) : gate 0 (handle_error data).
Proof.
  intros w. destruct data as [ | b | z | s | items | fields];
    try (exists [], []; split; [apply world_same | split; [apply Nat.le_refl | reflexivity]]).
  destruct (lookup "success" fields) as [[ | [ | ] | | | | ] | ] eqn:Hs;
    try (rewrite handle_error_success by (rewrite Hs; discriminate);
         exists [], []; split; [apply world_same | split; [apply Nat.le_refl | reflexivity]]).
  rewrite (handle_error_failure fields w Hs).
  exists (error_report fields), []. cbn [fst snd].
  split; [unfold complained; rewrite app_nil_r; reflexivity |].
  split; [apply Nat.le_refl |]. split; [reflexivity | apply error_report_not_nil].
Qed.

(** One check after the other. *)
Lemma gate_bind {A B} (n n' : nat) (m : M A) (k : A -> M B) :
  gate n m -> (forall a, gate n' (k a)) -> gate (n + n') (bind m k).
Proof.
  intros Hm Hk w. unfold bind.
  destruct (Hm w) as (err & req & Hw & Hlen & Hfst).
  destruct (m w) as [[a | code | e] w1]; cbn [fst snd] in *.
  - subst err. rewrite app_nil_r in Hw. subst w1.
    destruct (Hk a (mkWorld (stdout w) (stderr w) (sent w ++ req)))
      as (err' & req' & Hw' & Hlen' & Hfst').
    exists err', (req ++ req')%list. cbn [stdout stderr sent] in Hw'.
    rewrite <- app_assoc in Hw'.
    split; [exact Hw' |]. split; [| exact Hfst'].
    rewrite length_app. apply Nat.add_le_mono; assumption.
  - exists err, req. split; [exact Hw |]. split; [| exact Hfst].
    apply (Nat.le_trans _ n); [exact Hlen | apply Nat.le_add_r].
  - exists err, req. split; [exact Hw |]. split; [| exact Hfst].
    apply (Nat.le_trans _ n); [exact Hlen | apply Nat.le_add_r].
Qed.

(** The checks, then the printing. *)
Lemma gate_then_quiet {A B} (n : nat) (m : M A) (k : A -> M B) :
  gate n m -> (forall a, quiet (k a)) -> orderly n (bind m k).
Proof.
  intros Hm Hk w. unfold bind.
  destruct (Hm w) as (err & req & Hw & Hlen & Hfst).
  destruct (m w) as [[a | code | e] w1]; cbn [fst snd] in *.
  - subst err. rewrite app_nil_r in Hw. subst w1.
    destruct (Hk a (mkWorld (stdout w) (stderr w) (sent w ++ req))) as [[out Hout] Hexit].
    exists out, [], req. split; [| split; [exact Hlen |]].
    + rewrite Hout, app_nil_r. reflexivity.
    + destruct (fst (k a _)) as [b | code | e] eqn:Hk1; try reflexivity.
      contradiction (Hexit code). reflexivity.
  - exists [], err, req. rewrite app_nil_r.
    split; [exact Hw |]. split; [exact Hlen |].
    destruct Hfst as [-> Herr]. repeat split. exact Herr.
  - exists [], err, req. rewrite app_nil_r.
    split; [exact Hw |]. split; [exact Hlen | exact Hfst].
Qed.

Lemma orderly_ext {A} (n : nat) (m m' : M A) :
  (forall w, m w = m' w) -> orderly n m' -> orderly n m.
Proof. intros Heq Hm w. rewrite Heq. apply Hm. Qed.

Lemma bind_assoc {A B C} (m : M A) (k : A -> M B) (k' : B -> M C) (w : world) :
  bind (bind m k) k' w = bind m (fun a => bind (k a) k') w.
Proof.
  unfold bind. destruct (m w) as [[a | code | e] w1]; reflexivity.
Qed.

Lemma orderly_feed (E : env) (sort : string) (limit : Z) (output_json : bool) :
  orderly 1 (feed E sort limit output_json).
Proof.
  unfold feed. apply gate_then_quiet; [apply gate_api_request | intros data].
  destruct output_json; quiet_steps.
  apply quiet_for_each. intros. apply quiet_feed_entry.
Qed.

Lemma orderly_post (E : env) (post_id : string) (output_json : bool) :
  orderly 1 (post E post_id output_json).
Proof.
  unfold post. apply gate_then_quiet; [apply gate_api_request | intros data].
  destruct output_json; quiet_steps. apply quiet_print_comments.
Qed.

Lemma orderly_user (E : env) (username : string) (output_json : bool) :
  orderly 1 (user E username output_json).
Proof.
  unfold user. apply gate_then_quiet; [apply gate_api_request | intros data].
  destruct output_json; quiet_steps.
Qed.

Lemma orderly_checked {B} (E : env) (method endpoint : string)
    (json_data : option json) (params : option (list (string * json)))
    (k : json -> M B) :
  (forall data, quiet (k data)) ->
  orderly 1 (data <- api_request E method endpoint json_data params ;;
             handle_error data ;; k data).
Proof.
  intros Hk.
  apply (orderly_ext 1 _
           (bind (bind (api_request E method endpoint json_data params)
                       (fun data => bind (handle_error data) (fun _ => ret data)))
                 k)).
  - intros w. rewrite bind_assoc. apply bind_ext. intros data w'.
    rewrite bind_assoc. apply bind_ext. intros [] w''. reflexivity.
  - apply gate_then_quiet; [| exact Hk].
    apply (gate_bind 1 0); [apply gate_api_request | intros data].
    apply (gate_bind 0 0); [apply gate_handle_error | intros _].
    intros w. exists [], []. split; [apply world_same |].
    split; [apply Nat.le_refl | reflexivity].
Qed.

Lemma orderly_create (E : env) (title content submolt : string) :
  orderly 1 (create E title content submolt).
Proof.
  unfold create. apply orderly_checked. intros data. quiet_steps.
Qed.

Lemma orderly_delete (E : env) (post_id : string) : orderly 1 (delete E post_id).
Proof.
  unfold delete. apply orderly_checked. intros data. quiet_steps.
Qed.

Lemma orderly_comment (E : env) (post_id content : string) (parent_id : option string) :
  orderly 1 (comment E post_id content parent_id).
Proof.
  unfold comment. apply orderly_checked. intros data. quiet_steps.
Qed.

Lemma orderly_commands (E : env) (c : command) (kw : list (string * Click.value)) :
  In c (commands E) -> orderly 1 (cmd_callback c kw).
Proof.
  intros [<- | [<- | [<- | [<- | [<- | [<- | []]]]]]]; cbn [cmd_callback
    feed_command post_command create_command delete_command comment_command user_command].
  - apply orderly_feed.
  - apply orderly_post.
  - apply orderly_create.
  - apply orderly_delete.
  - apply orderly_comment.
  - apply orderly_user.
Qed.

(** *** The whole process *)

Lemma get_command_In (name : string) (cmds : list command) (c : command) :
  get_command name cmds = Some c -> In c cmds /\ cmd_name c = name.
Proof.
  induction cmds as [ | c' cmds IH]; [discriminate |].
  cbn [get_command]. destruct (String.eqb_spec (cmd_name c') name) as [Hname | Hname].
  - intros [= ->]. split; [left; reflexivity | exact Hname].
  - intros H. destruct (IH H) as [Hin Hc]. split; [right; exact Hin | exact Hc].
Qed.

(** Either the command line is refused (or answered with the help
    page) and nothing happens, or the function of one command of the
    group runs from the initial world. *)
Lemma cli_runs_a_command (E : env) (argv : list string) :
  (snd (cli E argv) = start /\
   (fst (cli E argv) = HelpShown \/ exists e, fst (cli E argv) = UsageError e)) \/
  (exists c kw,
     In c (commands E) /\
     fst (cli E argv) = status_of (fst (cmd_callback c kw start)) /\
     snd (cli E argv) = snd (cmd_callback c kw start)).
Proof.
  unfold cli.
  destruct (Click.parse_group argv) as [[name words] | | e];
    [| left; split; [reflexivity | left; reflexivity]
     | left; split; [reflexivity | right; exists e; reflexivity]].
  destruct (get_command name (commands E)) as [c | ] eqn:Hc;
    [| left; split; [reflexivity | right; eexists; reflexivity]].
  destruct (Click.parse_command (cmd_params c) words) as [kw | | e] eqn:Hkw;
    [| left; split; [reflexivity | left; reflexivity]
     | left; split; [reflexivity | right; exists e; reflexivity]].
  right. exists c, kw. split; [apply (get_command_In name), Hc |].
  destruct (cmd_callback c kw start) as [[[] | code | e] w]; split; reflexivity.
Qed.

(** X1. Whatever the command line, the credentials, the network and the
    response, a run of the script sends at most one request. *)
Theorem at_most_one_request (E : env) (argv : list string) :
  (List.length (sent (snd (cli E argv))) <= 1)%nat.
Proof.
  destruct (cli_runs_a_command E argv) as [[-> _] | (c & kw & Hin & _ & ->)].
  - apply Nat.le_0_l.
  - destruct (orderly_commands E c kw Hin start) as (out & err & req & -> & Hlen & _).
    exact Hlen.
Qed.

(** X2. The exit status of the script is 0, 1 or 2.  A run that ends by
    [sys.exit] ends with status 1, has written its reason to standard
    error and has printed nothing on standard output; a run that ends
    normally has written nothing to standard error, and in a run
    stopped by an exception the script has written none of its own
    messages there; a refused command line prints and sends nothing. *)
Theorem exit_discipline (E : env) (argv : list string) :
  (exit_code (fst (cli E argv)) = 0 \/ exit_code (fst (cli E argv)) = 1
   \/ exit_code (fst (cli E argv)) = 2) /\
  (forall code,
     fst (cli E argv) = Exited code ->
     code = 0 /\ stderr (snd (cli E argv)) = []
     \/ code = 1 /\ stdout (snd (cli E argv)) = [] /\ stderr (snd (cli E argv)) <> []) /\
  (forall e, fst (cli E argv) = Crashed e -> stderr (snd (cli E argv)) = []) /\
  (forall e, fst (cli E argv) = UsageError e -> snd (cli E argv) = start).
Proof.
  destruct (cli_runs_a_command E argv)
    as [[Hw [Hst | [e Hst]]] | (c & kw & Hin & Hst & Hw)];
    rewrite Hst, Hw.
  - repeat split; try discriminate. left. reflexivity.
  - repeat split; try discriminate. right. right. reflexivity.
  - destruct (orderly_commands E c kw Hin start) as (out & err & req & -> & _ & Hfst).
    cbn [stdout stderr app].
    destruct (fst (cmd_callback c kw start)) as [[] | code | e];
      cbn [status_of exit_code].
    + subst err. repeat split; try discriminate; auto.
      intros code [= <-]. left. split; reflexivity.
    + destruct Hfst as (-> & -> & Herr). repeat split; try discriminate; auto.
      intros code [= <-]. right. repeat split. exact Herr.
    + subst err. repeat split; try discriminate; auto.
Qed.

(** *** Credentials and transport *)

(** X3. Without a credentials file every command stops before the
    network is touched: the two lines about the file go to standard
    error, the status is 1, and no run of the script sends a request. *)
Theorem missing_credentials_stop_every_command (E : env) :
  credentials E = None ->
  (forall c kw w,
     In c (commands E) ->
     cmd_callback c kw w = (Exit 1, complained w credentials_report)) /\
  (forall argv, sent (snd (cli E argv)) = []).
Proof.
  intros Hcred.
  assert (Hcmd : forall c kw w,
            In c (commands E) ->
            cmd_callback c kw w = (Exit 1, complained w credentials_report)).
  { intros c kw w [<- | [<- | [<- | [<- | [<- | [<- | []]]]]]];
      cbn [cmd_callback feed_command post_command create_command
           delete_command comment_command user_command];
      unfold feed, post, create, delete, comment, user, bind;
      rewrite (api_request_without_credentials E _ _ _ _ w Hcred); reflexivity. }
  split; [exact Hcmd |].
  intros argv.
  destruct (cli_runs_a_command E argv) as [[-> _] | (c & kw & Hin & _ & ->)];
    [reflexivity |].
  rewrite (Hcmd c kw start Hin). reflexivity.
Qed.

Lemma missing_credentials_stop_every_command_witness :
  cmd_callback
    (feed_command (mkEnv None (fun _ => ConnectionError) sample_fromisoformat sample_now 0))
    [] start
  = (Exit 1, complained start credentials_report) /\
  sent (snd (cli (mkEnv None (fun _ => ConnectionError) sample_fromisoformat sample_now 0)
                 ["feed"])) = [].
Proof.
  destruct (missing_credentials_stop_every_command
              (mkEnv None (fun _ => ConnectionError) sample_fromisoformat sample_now 0)
              eq_refl) as [Hcmd Hsent].
  split.
  - apply Hcmd. left. reflexivity.
  - apply Hsent.
Defined.

(** X4. When the request gets no usable answer the command stops with
    status 1 and one line on standard error: no connection, a timeout,
    or a body that is not JSON under a status other than 404, 401 and
    403.  Any other failure of the request escapes as an exception. *)
Theorem transport_failures_stop_every_command (E : env) (key : string)
    (c : command) (kw : list (string * Click.value)) (w : world) (answer : http_result) :
  credentials E = Some key ->
  In c (commands E) ->
  (forall r, network E r = answer) ->
  (answer = ConnectionError \/ answer = Timeout
   \/ (exists status_code, answer = Response status_code None
                           /\ fatal_status status_code = false) ->
   exists r, cmd_callback c kw w
             = (Exit 1, complained (requested w r) [transport_message answer])) /\
  (answer = OtherFailure ->
   exists r, cmd_callback c kw w = (Raise RequestException, requested w r)).
Proof.
  intros Hcred Hin Hnet.
  assert (Hreq : forall method endpoint json_data params,
            api_request E method endpoint json_data params w
            = match answer with
              | Response status_code body =>
                  let w' := requested w (request_of key method endpoint json_data params) in
                  if fatal_status status_code
                  then (Exit 1, complained w' [status_message status_code])
                  else match body with
                       | Some data => (Return data, w')
                       | None => (Exit 1, complained w' ["Error: Invalid response from server"])
                       end
              | ConnectionError =>
                  (Exit 1, complained (requested w (request_of key method endpoint json_data params))
                                      ["Error: Could not connect to moltbook.com"])
              | Timeout =>
                  (Exit 1, complained (requested w (request_of key method endpoint json_data params))
                                      ["Error: Request timed out"])
              | OtherFailure =>
                  (Raise RequestException,
                   requested w (request_of key method endpoint json_data params))
              end).
  { intros. rewrite (api_request_sends E _ _ key _ _ w Hcred), Hnet. reflexivity. }
  split.
  - intros Hanswer.
    destruct Hin as [<- | [<- | [<- | [<- | [<- | [<- | []]]]]]];
      cbn [cmd_callback feed_command post_command create_command
           delete_command comment_command user_command];
      unfold feed, post, create, delete, comment, user, bind;
      rewrite Hreq;
      (destruct Hanswer as [-> | [-> | (status_code & -> & Hstatus)]];
       [ | | cbn zeta; rewrite Hstatus ]; eexists; reflexivity).
  - intros ->.
    destruct Hin as [<- | [<- | [<- | [<- | [<- | [<- | []]]]]]];
      cbn [cmd_callback feed_command post_command create_command
           delete_command comment_command user_command];
      unfold feed, post, create, delete, comment, user, bind;
      rewrite Hreq; eexists; reflexivity.
Qed.

Lemma transport_failures_stop_every_command_witness :
  exists r,
    delete (mkEnv (Some "test_api_key") (fun _ => Timeout) sample_fromisoformat sample_now 0)
           "abc123" start
    = (Exit 1, complained (requested start r) ["Error: Request timed out"]).
Proof.
  destruct (transport_failures_stop_every_command
              (mkEnv (Some "test_api_key") (fun _ => Timeout)
                     sample_fromisoformat sample_now 0)
              "test_api_key" (delete_command _) [("post_id", Click.VStr "abc123")]
              start Timeout eq_refl
              (or_intror (or_intror (or_intror (or_introl eq_refl))))
              (fun _ => eq_refl)) as [Hstop _].
  exact (Hstop (or_intror (or_introl eq_refl))).
Defined.

(** *** The request of each command *)

Lemma quiet_sent {A} (m : M A) (w : world) : quiet m -> sent (snd (m w)) = sent w.
Proof. intros Hm. destruct (Hm w) as [[out ->] _]. reflexivity. Qed.

Lemma api_request_sent (E : env) (key method endpoint : string)
    (json_data : option json) (params : option (list (string * json))) (w : world) :
  credentials E = Some key ->
  sent (snd (api_request E method endpoint json_data params w))
  = (sent w ++ [request_of key method endpoint json_data params])%list.
Proof.
  intros Hcred. rewrite (api_request_sends E _ _ key _ _ w Hcred).
  destruct (network E _) as [ | | | status_code body]; try reflexivity.
  cbn zeta. destruct (fatal_status status_code); [reflexivity |].
  destruct body; reflexivity.
Qed.

Lemma sent_after_request {B} (E : env) (key method endpoint : string)
    (json_data : option json) (params : option (list (string * json)))
    (k : json -> M B) (w : world) :
  credentials E = Some key ->
  (forall data w', sent (snd (k data w')) = sent w') ->
  sent (snd (bind (api_request E method endpoint json_data params) k w))
  = (sent w ++ [request_of key method endpoint json_data params])%list.
Proof.
  intros Hcred Hk.
  pose proof (api_request_sent E key method endpoint json_data params w Hcred) as Hsent.
  unfold bind.
  destruct (api_request E method endpoint json_data params w) as [[data | code | e] w'];
    cbn [snd] in *; [rewrite Hk | |]; exact Hsent.
Qed.

Lemma sent_after_check {B} (data : json) (k : M B) (w : world) :
  quiet k -> sent (snd (bind (handle_error data) (fun _ => k) w)) = sent w.
Proof.
  intros Hk. unfold bind.
  destruct (gate_handle_error data w) as (err & req & Hw & Hlen & _).
  destruct req; [| cbn in Hlen; inversion Hlen].
  destruct (handle_error data w) as [[[] | code | e] w']; cbn [snd] in *;
    [rewrite (quiet_sent k w' Hk) | |]; rewrite Hw; cbn [sent]; apply app_nil_r.
Qed.

(** X5. Whatever the answer of the server, [api_request] sends one
    request: the method as given, the base URL followed by the endpoint,
    a timeout of 30 seconds, the body and the query as given, the header
    [Authorization: Bearer] with the content of the credentials file
    stripped of surrounding white space, and the header [Content-Type:
    application/json] exactly when a body that is not empty is given. *)
Theorem api_request_sends_one_authorised_request (E : env) (key method endpoint : string)
    (json_data : option json) (params : option (list (string * json))) (w : world) :
  credentials E = Some key ->
  exists r,
    sent (snd (api_request E method endpoint json_data params w)) = (sent w ++ [r])%list /\
    req_method r = method /\
    req_url r = "https://www.moltbook.com/api/v1" ++ endpoint /\
    req_timeout r = 30 /\
    req_json r = json_data /\
    req_params r = params /\
    hd_error (req_headers r) = Some ("Authorization", "Bearer " ++ strip key) /\
    (In ("Content-Type", "application/json") (req_headers r)
     <-> exists d, json_data = Some d /\ truthy d = true).
Proof.
  intros Hcred. exists (request_of key method endpoint json_data params).
  split; [apply api_request_sent, Hcred |].
  unfold request_of. cbn [req_method req_url req_timeout req_json req_params req_headers].
  repeat (split; [reflexivity |]).
  split.
  - destruct json_data as [d | ]; [destruct (truthy d) |]; reflexivity.
  - destruct json_data as [d | ]; [destruct (truthy d) eqn:Hd |]; cbn [In]; split.
    + intros _. exists d. split; [reflexivity | exact Hd].
    + intros _. right. left. reflexivity.
    + intros [H | []]. discriminate.
    + intros (d' & [= <-] & Hd'). rewrite Hd in Hd'. discriminate.
    + intros [H | []]. discriminate.
    + intros (d' & H & _). discriminate.
Qed.

Lemma api_request_sends_one_authorised_request_witness :
  exists r,
    sent (snd (api_request (sample_env 200 JNull) "GET" "/posts" None None start)) = [r] /\
    hd_error (req_headers r) = Some ("Authorization", "Bearer test_api_key").
Proof.
  destruct (api_request_sends_one_authorised_request
              (sample_env 200 JNull) "test_api_key" "GET" "/posts" None None start eq_refl)
    as (r & Hsent & _ & _ & _ & _ & _ & Hauth & _).
  exists r. split; [exact Hsent | exact Hauth].
Defined.

(** X6. Each command sends its own request, whatever the server answers
    and whatever is printed afterwards: feed a GET of /posts with the
    sort and the limit as query, post a GET of /posts/{id}, create a
    POST of /posts with title, content and submolt as body, delete a
    DELETE of /posts/{id}, comment a POST of /posts/{id}/comments with
    the content and, when a parent is named, the parent id as body,
    user a GET of /users/{username}. *)
Theorem every_command_sends_its_request (E : env) (key : string) (w : world) :
  credentials E = Some key ->
  (forall sort limit output_json,
     sent (snd (feed E sort limit output_json w))
     = (sent w ++ [request_of key "GET" "/posts" None
                     (Some [("sort", JStr sort); ("limit", JInt limit)])])%list) /\
  (forall post_id output_json,
     sent (snd (post E post_id output_json w))
     = (sent w ++ [request_of key "GET" ("/posts/" ++ post_id) None None])%list) /\
  (forall title content submolt,
     sent (snd (create E title content submolt w))
     = (sent w ++ [request_of key "POST" "/posts"
                     (Some (JObj [("title", JStr title); ("content", JStr content);
                                  ("submolt", JStr submolt)])) None])%list) /\
  (forall post_id,
     sent (snd (delete E post_id w))
     = (sent w ++ [request_of key "DELETE" ("/posts/" ++ post_id) None None])%list) /\
  (forall post_id content parent_id,
     sent (snd (comment E post_id content parent_id w))
     = (sent w ++ [request_of key "POST" ("/posts/" ++ post_id ++ "/comments")
                     (Some (comment_body content parent_id)) None])%list) /\
  (forall username output_json,
     sent (snd (user E username output_json w))
     = (sent w ++ [request_of key "GET" ("/users/" ++ username) None None])%list).
Proof.
  intros Hcred.
  split; [| split; [| split; [| split; [| split]]]].
  - intros sort limit output_json. unfold feed.
    apply sent_after_request; [exact Hcred |]. intros data w'. apply quiet_sent.
    destruct output_json; quiet_steps.
    apply quiet_for_each. intros. apply quiet_feed_entry.
  - intros post_id output_json. unfold post.
    apply sent_after_request; [exact Hcred |]. intros data w'. apply quiet_sent.
    destruct output_json; quiet_steps. apply quiet_print_comments.
  - intros title content submolt. unfold create.
    apply sent_after_request; [exact Hcred |]. intros data w'.
    apply sent_after_check. quiet_steps.
  - intros post_id. unfold delete.
    apply sent_after_request; [exact Hcred |]. intros data w'.
    apply sent_after_check. quiet_steps.
  - intros post_id content parent_id. unfold comment.
    replace (comment_body content parent_id)
      with (JObj match parent_id with
                 | Some parent =>
                     if negb (String.eqb parent "")
                     then ([("content", JStr content)] ++ [("parent_id", JStr parent)])%list
                     else [("content", JStr content)]
                 | None => [("content", JStr content)]
                 end)
      by (unfold comment_body; destruct parent_id as [parent | ];
          [destruct (String.eqb parent "") |]; reflexivity).
    apply sent_after_request; [exact Hcred |]. intros data w'.
    apply sent_after_check. quiet_steps.
  - intros username output_json. unfold user.
    apply sent_after_request; [exact Hcred |]. intros data w'. apply quiet_sent.
    destruct output_json; quiet_steps.
Qed.

Lemma every_command_sends_its_request_witness :
  sent (snd (comment (sample_env 200 sample_failure) "abc123" "I agree" (Some "parent456")
                     start))
  = [request_of "test_api_key" "POST" "/posts/abc123/comments"
       (Some (JObj [("content", JStr "I agree"); ("parent_id", JStr "parent456")])) None].
Proof.
  destruct (every_command_sends_its_request (sample_env 200 sample_failure)
              "test_api_key" start eq_refl) as (_ & _ & _ & _ & Hcomment & _).
  apply Hcomment.
Defined.

(** *** What the commands print *)

(** X7. When the response has no posts -- the key is missing, or it
    holds an empty list, null or anything else falsy -- [feed] prints
    "No posts found" and ends normally.  The success field is not
    looked at: a failure envelope is reported the same way. *)
Theorem feed_without_posts (E : env) (sort : string) (limit : Z)
    (dfields : list (string * json)) (w w' : world) :
  api_request E "GET" "/posts" None
    (Some [("sort", JStr sort); ("limit", JInt limit)]) w = (Return (JObj dfields), w') ->
  truthy (field "posts" (JList []) dfields) = false ->
  feed E sort limit false w = (Return tt, printed w' ["No posts found"]).
Proof.
  intros Hreq Hposts. unfold feed.
  rewrite (bind_return _ _ _ _ _ Hreq).
  rewrite (bind_return _ _ _ _ _ (get_field _ _ _ _)), Hposts. reflexivity.
Qed.

Lemma feed_without_posts_witness :
  feed (sample_env 200 sample_failure) "hot" 20 false start
  = (Return tt,
     printed (requested start
                (request_of "test_api_key" "GET" "/posts" None
                   (Some [("sort", JStr "hot"); ("limit", JInt 20)])))
             ["No posts found"]).
Proof.
  apply (feed_without_posts (sample_env 200 sample_failure) "hot" 20
           [("success", JBool false); ("error", JStr "E"); ("hint", JStr "H");
            ("retry_after_minutes", JInt 5)]);
    reflexivity.
Defined.

Lemma comment_lines_not_dict (E : env) (prefix : string) (c : json) (w : world) :
  (forall fields, c <> JObj fields) ->
  comment_lines E prefix c w = (Raise AttributeError, w).
Proof.
  intros Hc. destruct c; try reflexivity. contradiction (Hc fields). reflexivity.
Qed.

Lemma feed_entry_not_dict (E : env) (post : json) (w : world) :
  (forall fields, post <> JObj fields) ->
  feed_entry E post w = (Raise AttributeError, w).
Proof.
  intros Hc. destruct post; try reflexivity. contradiction (Hc fields). reflexivity.
Qed.

Lemma for_each_app {A} (items rest : list A) (body : A -> M unit) (w : world) :
  for_each (items ++ rest) body w = (for_each items body ;; for_each rest body) w.
Proof.
  revert w. induction items as [ | x items IH]; intros w; [reflexivity |].
  cbn [app for_each]. rewrite bind_assoc. apply bind_ext. intros _ w'. apply IH.
Qed.

(** X8. The feed is printed post by post, so an item that is not an
    object stops the command with an exception after the posts before
    it have been printed: the output is left partial. *)
Theorem feed_stops_at_malformed_post (E : env) (sort : string) (limit : Z)
    (dfields : list (string * json)) (before after : list json) (bad : json)
    (w w' : world) :
  api_request E "GET" "/posts" None
    (Some [("sort", JStr sort); ("limit", JInt limit)]) w = (Return (JObj dfields), w') ->
  field "posts" (JList []) dfields = JList (before ++ bad :: after) ->
  renderable_posts before = true ->
  (forall fields, bad <> JObj fields) ->
  feed E sort limit false w = (Raise AttributeError, printed w' (feed_page E before)).
Proof.
  intros Hreq Hposts Hbefore Hbad. unfold feed.
  rewrite (bind_return _ _ _ _ _ Hreq).
  rewrite (bind_return _ _ _ _ _ (get_field _ _ _ _)), Hposts.
  assert (truthy (JList (before ++ bad :: after)) = true) as ->
    by (destruct before; reflexivity).
  cbn [negb py_iter].
  rewrite (bind_return _ _ w' w' (before ++ bad :: after)%list) by reflexivity.
  rewrite for_each_app.
  rewrite (bind_return _ _ _ _ _ (for_each_feed_entry E before w' Hbefore)).
  cbn [for_each]. unfold bind. rewrite (feed_entry_not_dict E bad _ Hbad). reflexivity.
Qed.

Lemma feed_stops_at_malformed_post_witness :
  feed (sample_env 200 (JObj [("posts", JList [JObj bare_post; JStr "oops"])]))
       "hot" 20 false start
  = (Raise AttributeError,
     printed (requested start
                (request_of "test_api_key" "GET" "/posts" None
                   (Some [("sort", JStr "hot"); ("limit", JInt 20)])))
             [nl ++ "Untitled"; "  +0 points | 0 comments | unknown";
              "  by anonymous in general"; "  id: abc123"]).
Proof.
  apply (feed_stops_at_malformed_post
           (sample_env 200 (JObj [("posts", JList [JObj bare_post; JStr "oops"])]))
           "hot" 20 [("posts", JList [JObj bare_post; JStr "oops"])]
           [JObj bare_post] [] (JStr "oops"));
    [reflexivity | reflexivity | reflexivity | discriminate].
Defined.

(** X9. When the response has no post -- the key is missing or holds
    null or an empty object -- [post] prints "Post not found" and ends
    normally, without looking at the comments. *)
Theorem post_without_post (E : env) (post_id : string)
    (dfields : list (string * json)) (w w' : world) :
  api_request E "GET" ("/posts/" ++ post_id) None None w = (Return (JObj dfields), w') ->
  truthy (field "post" (JObj []) dfields) = false ->
  post E post_id false w = (Return tt, printed w' ["Post not found"]).
Proof.
  intros Hreq Hpost. unfold post.
  rewrite (bind_return _ _ _ _ _ Hreq).
  rewrite (bind_return _ _ _ _ _ (get_field _ _ _ _)), Hpost. reflexivity.
Qed.

Lemma post_without_post_witness :
  post (sample_env 200 (JObj [("post", JNull)])) "abc123" false start
  = (Return tt,
     printed (requested start (request_of "test_api_key" "GET" "/posts/abc123" None None))
             ["Post not found"]).
Proof.
  apply (post_without_post (sample_env 200 (JObj [("post", JNull)])) "abc123"
           [("post", JNull)]);
    reflexivity.
Defined.

(** X10. [user] prints "User not found" when the response has no user.
    For a user it prints the display name, which falls back to the
    username and then to "Unknown"; the username after an at sign; the
    bio when it is not empty; karma, followers and following, each 0
    when missing; and the time since the account was created. *)
Theorem user_profile (E : env) (username : string)
    (dfields : list (string * json)) (w w' : world) :
  api_request E "GET" ("/users/" ++ username) None None w = (Return (JObj dfields), w') ->
  (truthy (field "user" (JObj []) dfields) = false ->
   user E username false w = (Return tt, printed w' ["User not found"])) /\
  (forall u,
     field "user" (JObj []) dfields = JObj u ->
     u <> [] ->
     optional_text (field "created_at" JNull u) = true ->
     user E username false w = (Return tt, printed w' (user_lines E u))).
Proof.
  intros Hreq. split.
  - intros Huser. unfold user.
    rewrite (bind_return _ _ _ _ _ Hreq).
    rewrite (bind_return _ _ _ _ _ (get_field _ _ _ _)), Huser. reflexivity.
  - intros u Huser Hne Htime. unfold user.
    rewrite (bind_return _ _ _ _ _ Hreq).
    rewrite (bind_return _ _ _ _ _ (get_field _ _ _ _)), Huser.
    destruct u as [ | kv u]; [contradiction |].
    cbn [truthy negb]. unfold user_lines.
    do 6 step.
    destruct (truthy (field "bio" JNull (kv :: u))).
    + rewrite bind_assoc. repeat step.
      rewrite echo_printed, !printed_app. reflexivity.
    + rewrite (bind_return _ _ _ _ tt) by reflexivity.
      repeat step. rewrite echo_printed, !printed_app. reflexivity.
Qed.

Lemma user_profile_witness :
  user (sample_env 200 (JObj [("user", JObj [("username", JStr "testuser");
                                              ("karma", JInt 42)])]))
       "testuser" false start
  = (Return tt,
     printed (requested start (request_of "test_api_key" "GET" "/users/testuser" None None))
             [nl ++ "testuser"; "@testuser"; nl ++ "Karma: 42"; "Followers: 0";
              "Following: 0"; "Joined: unknown"]).
Proof.
  destruct (user_profile
              (sample_env 200 (JObj [("user", JObj [("username", JStr "testuser");
                                                     ("karma", JInt 42)])]))
              "testuser"
              [("user", JObj [("username", JStr "testuser"); ("karma", JInt 42)])]
              start _ eq_refl) as [_ Hprofile].
  apply (Hprofile [("username", JStr "testuser"); ("karma", JInt 42)]);
    [reflexivity | discriminate | reflexivity].
Defined.

Lemma handle_error_accepts (fields : list (string * json)) (w : world) :
  lookup "success" fields <> Some (JBool false) ->
  handle_error (JObj fields) w = (Return tt, w).
Proof. apply handle_error_success. Qed.

(** X11. Once the envelope is accepted, [create] prints the message of
    the response ("Post created!" when there is none), the full URL of
    the post when the response gives a path, and the id of the post.
    When the post of the response is there but is not an object, the
    command stops with an exception before anything is printed. *)
Theorem create_receipt (E : env) (title content submolt : string)
    (dfields : list (string * json)) (w w' : world) :
  api_request E "POST" "/posts"
    (Some (JObj [("title", JStr title); ("content", JStr content);
                 ("submolt", JStr submolt)])) None w = (Return (JObj dfields), w') ->
  lookup "success" dfields <> Some (JBool false) ->
  (forall p,
     field "post" (JObj []) dfields = JObj p ->
     create E title content submolt w
     = (Return tt, printed w' (create_lines dfields p))) /\
  ((forall p, field "post" (JObj []) dfields <> JObj p) ->
   create E title content submolt w = (Raise AttributeError, w')).
Proof.
  intros Hreq Hsuccess. split.
  - intros p Hp. unfold create.
    rewrite (bind_return _ _ _ _ _ Hreq).
    rewrite (bind_return _ _ _ _ _ (handle_error_accepts dfields w' Hsuccess)).
    step. rewrite Hp. do 2 step.
    rewrite (bind_return _ _ _ _ _ (echo_value_printed _ _)).
    unfold create_lines.
    destruct (truthy (field "url" (JStr "") p)).
    + cbn [String.eqb append Ascii.eqb negb].
      repeat step. rewrite echo_printed, !printed_app. reflexivity.
    + cbn [String.eqb negb].
      rewrite (bind_return _ _ _ _ tt) by reflexivity.
      repeat step. rewrite echo_printed, !printed_app. reflexivity.
  - intros Hp. unfold create.
    rewrite (bind_return _ _ _ _ _ Hreq).
    rewrite (bind_return _ _ _ _ _ (handle_error_accepts dfields w' Hsuccess)).
    step. unfold bind.
    destruct (field "post" (JObj []) dfields) as [ | b | z | s | items | p];
      try reflexivity.
    contradiction (Hp p). reflexivity.
Qed.

Lemma create_receipt_witness :
  create (sample_env 200 (JObj [("success", JBool true); ("message", JStr "Post created!");
                                ("post", JObj [("id", JStr "new123");
                                               ("url", JStr "/post/new123")])]))
         "New Post" "Content here" "general" start
  = (Return tt,
     printed (requested start
                (request_of "test_api_key" "POST" "/posts"
                   (Some (JObj [("title", JStr "New Post"); ("content", JStr "Content here");
                                ("submolt", JStr "general")])) None))
             ["Post created!"; "URL: https://moltbook.com/post/new123"; "ID: new123"]).
Proof.
  destruct (create_receipt
              (sample_env 200 (JObj [("success", JBool true);
                                     ("message", JStr "Post created!");
                                     ("post", JObj [("id", JStr "new123");
                                                    ("url", JStr "/post/new123")])]))
              "New Post" "Content here" "general"
              [("success", JBool true); ("message", JStr "Post created!");
               ("post", JObj [("id", JStr "new123"); ("url", JStr "/post/new123")])]
              start _ eq_refl) as [Hok _]; [discriminate |].
  apply (Hok [("id", JStr "new123"); ("url", JStr "/post/new123")]). reflexivity.
Defined.

(** X12. Once the envelope is accepted, [delete] prints the message of
    the response, "Post deleted" when there is none, and nothing else. *)
Theorem delete_receipt (E : env) (post_id : string)
    (dfields : list (string * json)) (w w' : world) :
  api_request E "DELETE" ("/posts/" ++ post_id) None None w = (Return (JObj dfields), w') ->
  lookup "success" dfields <> Some (JBool false) ->
  delete E post_id w
  = (Return tt, printed w' [echoed (field "message" (JStr "Post deleted") dfields)]).
Proof.
  intros Hreq Hsuccess. unfold delete.
  rewrite (bind_return _ _ _ _ _ Hreq).
  rewrite (bind_return _ _ _ _ _ (handle_error_accepts dfields w' Hsuccess)).
  step. apply echo_value_printed.
Qed.

Lemma delete_receipt_witness :
  delete (sample_env 200 (JObj [])) "abc123" start
  = (Return tt,
     printed (requested start (request_of "test_api_key" "DELETE" "/posts/abc123" None None))
             ["Post deleted"]).
Proof.
  apply (delete_receipt (sample_env 200 (JObj [])) "abc123" []);
    [reflexivity | discriminate].
Defined.

(** X13. Once the envelope is accepted, [comment] prints the message of
    the response ("Comment added!" when there is none) and the id of the
    new comment.  When the comment of the response is not an object the
    message is printed and the command then stops with an exception. *)
Theorem comment_receipt (E : env) (post_id content : string) (parent_id : option string)
    (dfields : list (string * json)) (w w' : world) :
  api_request E "POST" ("/posts/" ++ post_id ++ "/comments")
    (Some (comment_body content parent_id)) None w = (Return (JObj dfields), w') ->
  lookup "success" dfields <> Some (JBool false) ->
  (forall c,
     field "comment" (JObj []) dfields = JObj c ->
     comment E post_id content parent_id w
     = (Return tt,
        printed w' [echoed (field "message" (JStr "Comment added!") dfields);
                    "Comment ID: " ++ py_str (field "id" JNull c)])) /\
  ((forall c, field "comment" (JObj []) dfields <> JObj c) ->
   comment E post_id content parent_id w
   = (Raise AttributeError,
      printed w' [echoed (field "message" (JStr "Comment added!") dfields)])).
Proof.
  intros Hreq Hsuccess.
  assert (Hhead :
            comment E post_id content parent_id w
            = (id <- get (field "comment" (JObj []) dfields) "id" JNull ;;
               echo ("Comment ID: " ++ py_str id))
                (printed w' [echoed (field "message" (JStr "Comment added!") dfields)])).
  { unfold comment.
    replace (JObj match parent_id with
                  | Some parent =>
                      if negb (String.eqb parent "")
                      then ([("content", JStr content)] ++ [("parent_id", JStr parent)])%list
                      else [("content", JStr content)]
                  | None => [("content", JStr content)]
                  end)
      with (comment_body content parent_id)
      by (unfold comment_body; destruct parent_id as [parent | ];
          [destruct (String.eqb parent "") |]; reflexivity).
    rewrite (bind_return _ _ _ _ _ Hreq).
    rewrite (bind_return _ _ _ _ _ (handle_error_accepts dfields w' Hsuccess)).
    do 2 step.
    rewrite (bind_return _ _ _ _ _ (echo_value_printed _ _)). reflexivity. }
  rewrite Hhead. split.
  - intros c ->. step. rewrite echo_printed, printed_app. reflexivity.
  - intros Hc. unfold bind.
    destruct (field "comment" (JObj []) dfields) as [ | b | z | s | items | c];
      try reflexivity.
    contradiction (Hc c). reflexivity.
Qed.

Lemma comment_receipt_witness :
  comment (sample_env 200 (JObj [("success", JBool true); ("comment", JNull)]))
          "abc123" "Great post!" None start
  = (Raise AttributeError,
     printed (requested start
                (request_of "test_api_key" "POST" "/posts/abc123/comments"
                   (Some (JObj [("content", JStr "Great post!")])) None))
             ["Comment added!"]).
Proof.
  destruct (comment_receipt
              (sample_env 200 (JObj [("success", JBool true); ("comment", JNull)]))
              "abc123" "Great post!" None
              [("success", JBool true); ("comment", JNull)]
              start _ eq_refl) as [_ Hbad]; [discriminate |].
  apply Hbad. discriminate.
Defined.

(** X14. A response that is valid JSON but not an object stops every
    command with an exception before anything is printed, unless the
    raw output was asked for: with [--json] the value is printed as it
    is. *)
Theorem response_must_be_an_object (E : env) (c : command)
    (kw : list (string * Click.value)) (data : json) (w : world) (key : string) :
  credentials E = Some key ->
  (forall r, network E r = Response 200 (Some data)) ->
  (forall fields, data <> JObj fields) ->
  In c (commands E) ->
  (Click.kw_flag "output_json" kw = false ->
   exists r, cmd_callback c kw w = (Raise AttributeError, requested w r)) /\
  (Click.kw_flag "output_json" kw = true ->
   In c [feed_command E; post_command E; user_command E] ->
   exists r, cmd_callback c kw w = (Return tt, printed (requested w r) [json_dumps data])).
Proof.
  intros Hcred Hnet Hdata Hin.
  assert (Hreq : forall method endpoint json_data params,
            api_request E method endpoint json_data params w
            = (Return data, requested w (request_of key method endpoint json_data params))).
  { intros. rewrite (api_request_sends E _ _ key _ _ w Hcred), Hnet. reflexivity. }
  assert (Hget : forall k d w0, get data k d w0 = (Raise AttributeError, w0)).
  { intros. destruct data; try reflexivity. contradiction (Hdata fields). reflexivity. }
  assert (Hcheck : forall w0, handle_error data w0 = (Raise AttributeError, w0)).
  { intros. unfold handle_error, bind. rewrite Hget. reflexivity. }
  split.
  - intros Hflag.
    destruct Hin as [<- | [<- | [<- | [<- | [<- | [<- | []]]]]]];
      cbn [cmd_callback feed_command post_command create_command
           delete_command comment_command user_command];
      rewrite ?Hflag;
      unfold feed, post, create, delete, comment, user;
      rewrite (bind_return _ _ _ _ _ (Hreq _ _ _ _));
      unfold bind; rewrite ?Hcheck, ?Hget; eexists; reflexivity.
  - intros Hflag [<- | [<- | [<- | []]]];
      cbn [cmd_callback feed_command post_command user_command];
      rewrite Hflag;
      unfold feed, post, user;
      rewrite (bind_return _ _ _ _ _ (Hreq _ _ _ _));
      eexists; reflexivity.
Qed.

Lemma response_must_be_an_object_witness :
  exists r,
    feed (sample_env 200 (JList [])) "hot" 20 false start
    = (Raise AttributeError, requested start r).
Proof.
  destruct (response_must_be_an_object
              (sample_env 200 (JList [])) (feed_command (sample_env 200 (JList [])))
              [("sort", Click.VStr "hot"); ("limit", Click.VInt 20);
               ("output_json", Click.VBool false)]
              (JList []) start "test_api_key" eq_refl (fun _ => eq_refl))
    as [Hcrash _]; [discriminate | left; reflexivity |].
  exact (Hcrash eq_refl).
Defined.

(** *** More on relative times *)

Lemma timedelta_seconds_bound (d : Z) :
  0 <= seconds (timedelta_of_micros d) < 86400.
Proof.
  cbn [timedelta_of_micros seconds].
  pose proof (Z.mod_pos_bound d 86400000000 ltac:(lia)).
  split; [apply Z.div_pos; lia | apply Z.div_lt_upper_bound; lia].
Qed.

Lemma relative_time_form (d : Z) : relative_form (relative_time (timedelta_of_micros d)).
Proof.
  pose proof (timedelta_seconds_bound d) as Hs.
  unfold relative_time.
  destruct (Z.leb_spec 1 (days (timedelta_of_micros d))) as [Hd | Hd];
    [apply form_days; exact Hd |].
  destruct (Z.leb_spec 3600 (seconds (timedelta_of_micros d))) as [Hh | Hh].
  { apply form_hours. split.
    - apply Z.div_le_lower_bound; lia.
    - apply Z.lt_succ_r, Z.div_lt_upper_bound; lia. }
  destruct (Z.leb_spec 60 (seconds (timedelta_of_micros d))) as [Hm | Hm].
  { apply form_minutes. split.
    - apply Z.div_le_lower_bound; lia.
    - apply Z.lt_succ_r, Z.div_lt_upper_bound; lia. }
  apply form_now.
Qed.

(** X15. For a string that is not empty [format_time] returns either
    the string itself, when it cannot be parsed, or one of four forms:
    a number of days that is at least 1, a number of hours from 1 to
    23, a number of minutes from 1 to 59, or "just now". *)
Theorem format_time_results (E : env) (s : string) :
  s <> "" ->
  exists t,
    format_time E (JStr s) = Return t /\
    (fromisoformat E (replace_char "Z" "+00:00" s) = None /\ t = s
     \/ relative_form t).
Proof.
  intros Hs.
  destruct (fromisoformat E (replace_char "Z" "+00:00" s)) as [dt | ] eqn:Hparse.
  - exists (relative_time (elapsed E dt)). split.
    + apply format_time_parsed; assumption.
    + right. apply relative_time_form.
  - exists s. split.
    + unfold format_time. rewrite (truthy_JStr s Hs). cbn [negb]. rewrite Hparse.
      reflexivity.
    + left. split; reflexivity.
Qed.

Lemma format_time_results_witness :
  exists t,
    format_time (sample_env 200 JNull) (JStr "2026-01-30T12:00:00Z") = Return t /\
    (fromisoformat (sample_env 200 JNull)
       (replace_char "Z" "+00:00" "2026-01-30T12:00:00Z") = None
     /\ t = "2026-01-30T12:00:00Z"
     \/ relative_form t).
Proof.
  apply (format_time_results (sample_env 200 JNull) "2026-01-30T12:00:00Z").
  discriminate.
Defined.

(** X16. A timestamp in the future is not told apart: one that lies k
    seconds ahead, up to a day, is shown like one that is 86400 - k
    seconds old, so that an hour ahead reads "23h ago". *)
Theorem format_time_of_future_timestamp (E : env) (s : string) (dt : datetime) (k : Z) :
  s <> "" ->
  fromisoformat E (replace_char "Z" "+00:00" s) = Some dt ->
  0 < k < 86400 ->
  wall dt - wall (datetime_now E (tzinfo dt)) = k * 1000000 ->
  format_time E (JStr s)
  = Return (relative_time (timedelta_of_micros ((86400 - k) * 1000000))).
Proof.
  intros Hs Hparse Hk Hahead.
  rewrite (format_time_parsed E s dt Hs Hparse).
  unfold elapsed, datetime_sub.
  replace (wall (datetime_now E (tzinfo dt)) - wall dt) with (- k * 1000000) by lia.
  assert (Hq : (- k * 1000000) / 86400000000 = -1).
  { symmetry. apply (Z.div_unique _ _ _ ((86400 - k) * 1000000)); lia. }
  assert (Hr : (- k * 1000000) mod 86400000000 = (86400 - k) * 1000000).
  { symmetry. apply (Z.mod_unique _ _ (-1)); lia. }
  assert (Hq' : ((86400 - k) * 1000000) / 86400000000 = 0).
  { apply Z.div_small. lia. }
  assert (Hr' : ((86400 - k) * 1000000) mod 86400000000 = (86400 - k) * 1000000).
  { apply Z.mod_small. lia. }
  unfold relative_time, timedelta_of_micros. cbn [days seconds].
  rewrite Hq, Hr, Hq', Hr'. reflexivity.
Qed.

Lemma format_time_of_future_timestamp_witness :
  format_time (mkEnv None (fun _ => Timeout)
                 (fun _ => Some (mkDatetime (sample_now + 3600 * 1000000) (Some 0)))
                 sample_now 0)
              (JStr "2026-01-30T14:30:00Z")
  = Return "23h ago".
Proof.
  rewrite (format_time_of_future_timestamp
             (mkEnv None (fun _ => Timeout)
                (fun _ => Some (mkDatetime (sample_now + 3600 * 1000000) (Some 0)))
                sample_now 0)
             "2026-01-30T14:30:00Z"
             (mkDatetime (sample_now + 3600 * 1000000) (Some 0)) 3600);
    [reflexivity | discriminate | reflexivity | lia | reflexivity].
Defined.

(** *** More on comment threads *)

Lemma render_length (indent : nat) (c : comment_tree) :
  List.length (render indent c) = (2 * comment_count c)%nat.
Proof.
  revert indent.
  induction c as [author_name votes relative content replies IH]
    using comment_tree_induction.
  intros indent. cbn [render comment_count List.length].
  assert (Hreplies : List.length (flat_map (render (S indent)) replies)
                     = (2 * list_sum (map comment_count replies))%nat).
  { induction IH as [ | r replies Hr _ IHreplies]; [reflexivity |].
    cbn [flat_map map]. rewrite length_app, Hr, IHreplies.
    unfold list_sum. cbn [fold_right]. lia. }
  rewrite Hreplies. lia.
Qed.

Lemma render_comments_length (comments : list comment_tree) (indent : nat) :
  List.length (render_comments comments indent)
  = (2 * list_sum (map comment_count comments))%nat.
Proof.
  unfold render_comments.
  induction comments as [ | c comments IH]; [reflexivity |].
  cbn [flat_map map]. rewrite length_app, render_length, IH.
  unfold list_sum. cbn [fold_right]. lia.
Qed.

(** X17. For comments the renderer accepts, [print_comments] prints two
    lines for every comment of the thread, replies at every depth
    included, and ends normally. *)
Theorem print_comments_two_lines_each (E : env) (comments : list comment_tree)
    (items : list json) (indent : nat) (w : world) :
  all_read_as E comments items = true ->
  exists out,
    print_comments E (JList items) indent w = (Return tt, printed w out) /\
    List.length out = (2 * list_sum (map comment_count comments))%nat.
Proof.
  intros Hall. exists (render_comments comments indent). split.
  - apply print_comments_tree, Hall.
  - apply render_comments_length.
Qed.

Lemma print_comments_two_lines_each_witness :
  exists out,
    print_comments (sample_env 200 JNull) sample_comments 0 start
    = (Return tt, printed start out) /\
    List.length out = 4%nat.
Proof.
  apply (print_comments_two_lines_each (sample_env 200 JNull) sample_tree). reflexivity.
Defined.

Lemma append_assoc (a b c : string) : (a ++ b) ++ c = a ++ (b ++ c).
Proof. induction a as [ | x a IH]; [reflexivity |]. cbn. rewrite IH. reflexivity. Qed.

Lemma repeat_string_succ (s : string) (n : nat) :
  repeat_string s (S n) = repeat_string s n ++ s.
Proof.
  induction n as [ | n IH].
  - cbn. induction s as [ | x s IHs]; [reflexivity |]. cbn. rewrite IHs. reflexivity.
  - cbn [repeat_string] in *. rewrite IH at 1. rewrite append_assoc. reflexivity.
Qed.

Lemma render_indented (c : comment_tree) :
  forall indent line,
    In line (render indent c) ->
    exists rest, line = repeat_string "  " indent ++ rest.
Proof.
  induction c as [author_name votes relative content replies IH]
    using comment_tree_induction.
  intros indent line. cbn [render In].
  intros [<- | [<- | Hin]]; [eexists; reflexivity | eexists; reflexivity |].
  apply in_flat_map in Hin as (r & Hr & Hline).
  rewrite Forall_forall in IH.
  destruct (IH r Hr (S indent) line Hline) as [rest ->].
  exists ("  " ++ rest). rewrite repeat_string_succ, append_assoc. reflexivity.
Qed.

(** X18. For comments the renderer accepts, every line [print_comments]
    prints at indent n starts with 2n spaces: replies are never printed
    to the left of the comment they answer. *)
Theorem print_comments_indented (E : env) (comments : list comment_tree)
    (items : list json) (indent : nat) (w : world) :
  all_read_as E comments items = true ->
  exists out,
    print_comments E (JList items) indent w = (Return tt, printed w out) /\
    forall line, In line out -> exists rest, line = repeat_string "  " indent ++ rest.
Proof.
  intros Hall. exists (render_comments comments indent). split.
  - apply print_comments_tree, Hall.
  - intros line Hin. unfold render_comments in Hin.
    apply in_flat_map in Hin as (c & _ & Hline).
    apply (render_indented c indent line Hline).
Qed.

Lemma print_comments_indented_witness :
  exists out,
    print_comments (sample_env 200 JNull) sample_comments 1 start
    = (Return tt, printed start out) /\
    forall line, In line out -> exists rest, line = "  " ++ rest.
Proof.
  apply (print_comments_indented (sample_env 200 JNull) sample_tree). reflexivity.
Defined.

Lemma print_comments_app (E : env) (items rest : list json) (indent : nat) (w : world) :
  print_comments E (JList (items ++ rest)) indent w
  = (print_comments E (JList items) indent ;; print_comments E (JList rest) indent) w.
Proof.
  revert w. induction items as [ | c items IH]; intros w; [reflexivity |].
  cbn [app]. rewrite print_comments_cons.
  rewrite (bind_ext_l (print_comments E (JList (c :: items)) indent) _ _ w
             (fun w' => print_comments_cons E c items indent w')).
  match goal with
  | |- _ = bind (bind ?m ?k) ?k' ?w0 => rewrite (bind_assoc m k k' w0)
  end.
  apply bind_ext. intros _ w'. apply IH.
Qed.

(** X19. A thread is printed comment by comment, so an item that is not
    an object stops [print_comments] with an exception after the
    comments before it, with their replies, have been printed. *)
Theorem print_comments_stops_at_malformed_comment (E : env)
    (comments : list comment_tree) (items after : list json) (bad : json)
    (indent : nat) (w : world) :
  all_read_as E comments items = true ->
  (forall fields, bad <> JObj fields) ->
  print_comments E (JList (items ++ bad :: after)) indent w
  = (Raise AttributeError, printed w (render_comments comments indent)).
Proof.
  intros Hall Hbad.
  rewrite print_comments_app.
  rewrite (bind_return _ _ _ _ _ (print_comments_tree E comments items indent w Hall)).
  rewrite print_comments_cons. unfold bind.
  rewrite (comment_lines_not_dict E _ bad _ Hbad). reflexivity.
Qed.

Lemma print_comments_stops_at_malformed_comment_witness :
  print_comments (sample_env 200 JNull)
    (JList [JObj [("content", JStr "a")]; JNull; JObj [("content", JStr "c")]]) 0 start
  = (Raise AttributeError, printed start ["anonymous (+0) unknown"; "  a"]).
Proof.
  apply (print_comments_stops_at_malformed_comment (sample_env 200 JNull)
           [Comment "anonymous" 0 "unknown" "a" []]
           [JObj [("content", JStr "a")]] [JObj [("content", JStr "c")]] JNull 0 start);
    [reflexivity | discriminate].
Defined.

(** *** The command line *)






Lemma last_value_app_other (dest d v : string) (raw : list (string * string)) :
  d <> dest ->
  Click.last_value dest raw = None ->
  Click.last_value dest (raw ++ [(d, v)]) = None.
Proof.
  intros Hd. induction raw as [ | [d' v'] raw IH]; cbn [app Click.last_value].
  - destruct (String.eqb_spec d dest); [contradiction | reflexivity].
  - destruct (Click.last_value dest raw); [discriminate |].
    intros H. rewrite (IH eq_refl). exact H.
Qed.

(** The first pass finds no value for an option that no word gives,
    as long as no other flag of the command fills the same parameter. *)
Lemma scan_without_flag (params : list Click.param) (flag dest : string) :
  (forall name, name <> flag ->
     match Click.find_option name params with
     | Some (Click.Option_ _ d _ _ _) => d <> dest
     | _ => True
     end) ->
  forall n words acc s,
    (List.length words <= n)%nat ->
    without_flag flag words = true ->
    Click.last_value dest (Click.raw_options acc) = None ->
    Click.scan true params words acc = Click.Parsed s ->
    Click.last_value dest (Click.raw_options s) = None.
Proof.
  intros Hparams.
  induction n as [ | n IH]; intros words acc s Hlen Hwords Hacc Hscan.
  - destruct words; [| cbn in Hlen; lia]. injection Hscan as <-. exact Hacc.
  - destruct words as [ | w rest]; [injection Hscan as <-; exact Hacc |].
    cbn [List.length] in Hlen.
    cbn [without_flag forallb] in Hwords.
    apply andb_true_iff in Hwords as [Hw Hrest].
    fold (without_flag flag rest) in Hrest.
    cbn [Click.scan] in Hscan.
    destruct (String.eqb w "--"); [injection Hscan as <-; exact Hacc |].
    destruct (Click.is_option_word w).
    + unfold names_flag in Hw.
      destruct (Click.split_eq w) as [name explicit]. cbn [fst] in Hw.
      assert (Hname : name <> flag).
      { intros ->. rewrite String.eqb_refl in Hw. discriminate. }
      destruct (String.eqb name "--help").
      * destruct explicit; [discriminate |].
        eapply (IH rest); [ | | | exact Hscan]; [lia | exact Hrest | exact Hacc].
      * specialize (Hparams name Hname).
        destruct (Click.find_option name params) as [[f d t r df | f d | d] | ];
          try discriminate.
        -- destruct explicit as [v | ].
           ++ eapply (IH rest); [ | | | exact Hscan]; [lia | exact Hrest |].
              apply last_value_app_other; assumption.
           ++ destruct rest as [ | v rest']; [discriminate |].
              cbn [without_flag forallb] in Hrest.
              apply andb_true_iff in Hrest as [_ Hrest'].
              eapply (IH rest'); [ | | | exact Hscan];
                [cbn [List.length] in Hlen; lia | exact Hrest' |].
              apply last_value_app_other; assumption.
        -- destruct explicit; [discriminate |].
           eapply (IH rest); [ | | | exact Hscan]; [lia | exact Hrest | exact Hacc].
    + eapply (IH rest); [ | | | exact Hscan]; [lia | exact Hrest | exact Hacc].
Qed.

Lemma create_flags (E : env) (flag dest : string) :
  (flag = "--title" /\ dest = "title") \/ (flag = "--content" /\ dest = "content") ->
  forall name, name <> flag ->
    match Click.find_option name (cmd_params (create_command E)) with
    | Some (Click.Option_ _ d _ _ _) => d <> dest
    | _ => True
    end.
Proof.
  intros Hflag name Hname. cbn [cmd_params create_command Click.find_option].
  destruct (String.eqb_spec "--title" name) as [<- | _].
  { destruct Hflag as [[-> ->] | [-> ->]]; [contradiction | discriminate]. }
  destruct (String.eqb_spec "--content" name) as [<- | _].
  { destruct Hflag as [[-> ->] | [-> ->]]; [discriminate | contradiction]. }
  destruct (String.eqb_spec "--submolt" name) as [<- | _]; [| exact I].
  destruct Hflag as [[-> ->] | [-> ->]]; discriminate.
Qed.

(** X21. [create] needs a title and a content: a command line in which
    no word gives [--title], or none gives [--content], is refused (or
    answered with the help page) and nothing is printed or sent. *)
Theorem create_requires_title_and_content (E : env) (words : list string) :
  without_flag "--title" words = true \/ without_flag "--content" words = true ->
  snd (cli E ("create" :: words)) = start /\
  (fst (cli E ("create" :: words)) = HelpShown
   \/ exists e, fst (cli E ("create" :: words)) = UsageError e).
Proof.
  intros Hwords. unfold cli.
  cbn [Click.parse_group Click.scan String.eqb Ascii.eqb Bool.eqb Click.is_option_word
       Click.help_seen Click.positionals Click.nothing_scanned app
       Click.raw_options Click.raw_flags].
  cbn [get_command commands cmd_name feed_command post_command create_command
       String.eqb Ascii.eqb Bool.eqb].
  unfold Click.parse_command.
  destruct (Click.scan true _ words Click.nothing_scanned) as [s | | e] eqn:Hscan;
    [| split; [reflexivity | left; reflexivity]
     | split; [reflexivity | right; exists e; reflexivity]].
  destruct (Click.help_seen s); [split; [reflexivity | left; reflexivity] |].
  assert (Hassign : Click.assign (cmd_params (create_command E)) s (Click.positionals s)
                    = None).
  { cbn [Click.assign cmd_params create_command].
    destruct Hwords as [Hwords | Hwords].
    - rewrite (scan_without_flag _ "--title" "title"
                 (create_flags E _ _ (or_introl (conj eq_refl eq_refl)))
                 (List.length words) words Click.nothing_scanned s (Nat.le_refl _)
                 Hwords eq_refl Hscan).
      reflexivity.
    - rewrite (scan_without_flag _ "--content" "content"
                 (create_flags E _ _ (or_intror (conj eq_refl eq_refl)))
                 (List.length words) words Click.nothing_scanned s (Nat.le_refl _)
                 Hwords eq_refl Hscan).
      destruct (Click.last_value "title" (Click.raw_options s)); reflexivity. }
  cbn [cmd_params create_command] in Hassign |- *. rewrite Hassign.
  split; [reflexivity | right; eexists; reflexivity].
Qed.

Lemma create_requires_title_and_content_witness :
  snd (cli (sample_env 200 JNull) ["create"; "--title"; "Only Title"]) = start /\
  (fst (cli (sample_env 200 JNull) ["create"; "--title"; "Only Title"]) = HelpShown
   \/ exists e, fst (cli (sample_env 200 JNull) ["create"; "--title"; "Only Title"])
                 = UsageError e).
Proof.
  apply (create_requires_title_and_content (sample_env 200 JNull)
           ["--title"; "Only Title"]).
  right. reflexivity.
Defined.

Lemma comment_flags (E : env) :
  forall name, name <> "--content" ->
    match Click.find_option name (cmd_params (comment_command E)) with
    | Some (Click.Option_ _ d _ _ _) => d <> "content"
    | _ => True
    end.
Proof.
  intros name Hname. cbn [cmd_params comment_command Click.find_option].
  destruct (String.eqb_spec "--content" name) as [<- | _]; [contradiction |].
  destruct (String.eqb_spec "--reply-to" name) as [<- | _]; [discriminate | exact I].
Qed.

(** X22. [comment] needs a content: a command line in which no word
    gives [--content] is refused (or answered with the help page) and
    nothing is printed or sent. *)
Theorem comment_requires_content (E : env) (words : list string) :
  without_flag "--content" words = true ->
  snd (cli E ("comment" :: words)) = start /\
  (fst (cli E ("comment" :: words)) = HelpShown
   \/ exists e, fst (cli E ("comment" :: words)) = UsageError e).
Proof.
  intros Hwords. unfold cli.
  cbn [Click.parse_group Click.scan String.eqb Ascii.eqb Bool.eqb Click.is_option_word
       Click.help_seen Click.positionals Click.nothing_scanned app
       Click.raw_options Click.raw_flags].
  cbn [get_command commands cmd_name feed_command post_command create_command
       delete_command comment_command String.eqb Ascii.eqb Bool.eqb].
  unfold Click.parse_command.
  destruct (Click.scan true _ words Click.nothing_scanned) as [s | | e] eqn:Hscan;
    [| split; [reflexivity | left; reflexivity]
     | split; [reflexivity | right; exists e; reflexivity]].
  destruct (Click.help_seen s); [split; [reflexivity | left; reflexivity] |].
  assert (Hassign : Click.assign (cmd_params (comment_command E)) s (Click.positionals s)
                    = None).
  { cbn [Click.assign cmd_params comment_command].
    rewrite (scan_without_flag _ "--content" "content" (comment_flags E)
               (List.length words) words Click.nothing_scanned s (Nat.le_refl _)
               Hwords eq_refl Hscan).
    destruct (Click.positionals s); reflexivity. }
  cbn [cmd_params comment_command] in Hassign |- *. rewrite Hassign.
  split; [reflexivity | right; eexists; reflexivity].
Qed.

Lemma comment_requires_content_witness :
  snd (cli (sample_env 200 JNull) ["comment"; "abc123"]) = start /\
  (fst (cli (sample_env 200 JNull) ["comment"; "abc123"]) = HelpShown
   \/ exists e, fst (cli (sample_env 200 JNull) ["comment"; "abc123"]) = UsageError e).
Proof.
  apply (comment_requires_content (sample_env 200 JNull) ["abc123"]). reflexivity.
Defined.
